(** * Wrap / unwrap bot: a shallow embedding of [bot.py]

    The script talks to three things outside itself: the chain node behind
    [web3], the wall clock, and the file [transaction_status.json].  They
    are gathered in a [World]; every function of the script becomes a
    computation in a small state-and-exception monad over that world.

    - Python integers are unbounded, hence [Z].
    - The replies of the node are not under the script's control: they are
      given by an arbitrary oracle [Web3], indexed by the number of remote
      calls made so far.  Every theorem quantifies over the oracle.
    - Every remote call, [print], [sleep], assignment to the three counters
      and file operation is appended to [trace], newest first, so that
      statements about "every save" or "every point of the run" are
      statements about the events of the trace.
    - The top-level [while] may run forever; it takes the number of
      iterations it may still start, and reports [OutOfFuel] with the world
      it reached when that number is used up.
    - Reading the status file can fail in any way: the file may be
      absent, and [open] or [json.load] may raise any exception on it.
      Writing it and removing it are taken to succeed; a write that
      raises or is cut short is not modelled. *)

From Stdlib Require Import ZArith List String Ascii Bool Lia.
From Stdlib.Strings Require Import Byte.
From stdpp Require Import gmap strings.

Local Open Scope Z_scope.

(** ** Data *)

Definition Address := string.
Definition bytes := list Byte.byte.
Definition TxHash := bytes.

(** Subclasses of Python's [Exception] that the script can meet. *)
Inductive exn :=
| FileNotFoundError
| JSONDecodeError
| KeyError (key : string)
| TypeError
| OverflowError
| Web3Exception (code : nat)
| UnicodeDecodeError
| ValueError
| OtherException (name : string).

Inductive Exc (A : Type) :=
| Ok (a : A)
| Err (e : exn).
Arguments Ok {A} a.
Arguments Err {A} e.

(** The three module-level counters [wrap_counter], [unwrap_counter],
    [total_tx]. *)
Record Progress := mkProgress {
  wrap_counter : Z;
  unwrap_counter : Z;
  total_tx : Z
}.

(** What [open] and [json.load] can make of the status file.  Member
    values are restricted to integers, the only values the script ever
    writes.  [NotJson] is text that the parser rejects with
    [JSONDecodeError] (empty, cut short, not JSON syntax).  [Unreadable e]
    is a file on which opening, reading or parsing raises any other
    exception [e]: [UnicodeDecodeError] for bytes that are not text,
    [ValueError] for an integer literal beyond the digit limit, and so
    on. *)
Inductive FileContent :=
| NotJson                                (* json.load raises JSONDecodeError *)
| JsonNotObject                          (* valid JSON, but not an object *)
| JsonObject (fields : gmap string Z)    (* a JSON object, as a dict *)
| Unreadable (e : exn).                  (* open or json.load raises e *)

(** The call object whose gas the script has estimated:
    [weth_contract.functions.deposit(wad).estimate_gas({'from', 'value'})]
    or [weth_contract.functions.withdraw(wad).estimate_gas({'from'})], both
    built by web3 from the script's own ABI, in which [deposit] takes a
    [uint256].  It names the Python expression and nothing more: the
    calldata that web3 encodes for it is not modelled, and it is not the
    ['data'] string of the transaction, which the script writes by hand
    (for a wrap the bare selector of [deposit()], another function than
    the ABI's [deposit(uint256)]). *)
Inductive ContractCall :=
| Deposit (wad : Z) (from : Address) (value : Z)
| Withdraw (wad : Z) (from : Address).

(** The transaction dict; only the wrap transaction has a ['value'] key. *)
Record Transaction := mkTransaction {
  tx_to : Address;
  tx_chainId : Z;
  tx_gas : Z;
  tx_maxFeePerGas : Z;
  tx_maxPriorityFeePerGas : Z;
  tx_nonce : Z;
  tx_value : option Z;
  tx_data : string
}.

Record Receipt := mkReceipt { status : Z }.

(** The lines the script prints, one constructor per [print] statement. *)
Inductive Msg :=
| MsgErrorCheckingBalance (e : exn)
| MsgConfirmed (h : TxHash)
| MsgReverted (h : TxHash)
| MsgTimeout (h : TxHash)
| MsgInsufficientEth
| MsgInsufficientWeth
| MsgWrapSent (h : TxHash)
| MsgUnwrapSent (h : TxHash)
| MsgErrorSendingWrap (e : exn)
| MsgErrorSendingUnwrap (e : exn)
| MsgTotalWrapping (total wrap : Z)
| MsgTotalUnwrapping (total unwrap : Z)
| MsgFileDeleted.

Inductive Event :=
| EvEstimateGas (c : ContractCall) (r : Exc Z)
| EvGetBalance (a : Address) (r : Exc Z)
| EvBalanceOf (a : Address) (r : Exc Z)
| EvGetTransactionCount (a : Address) (r : Exc Z)
| EvSign (tx : Transaction) (r : Exc bytes)
| EvSendRaw (raw : bytes) (r : Exc TxHash)
| EvGetReceipt (h : TxHash) (r : Exc (option Receipt))
| EvPrint (m : Msg)
| EvSleep (d : Z)
| EvStore (p : Progress)
| EvSave (p : Progress)
| EvRemove.

Record World := mkWorld {
  vars : Progress;                (* the three counters *)
  file : option FileContent;      (* transaction_status.json, if present *)
  now : Z;                        (* time.time() *)
  calls : nat;                    (* remote calls made so far *)
  trace : list Event              (* newest first *)
}.

(** The chain client: the reply to the [i]-th remote call of the run, and
    the time that call takes.  Signing is local and deterministic. *)
Record Web3 := mkWeb3 {
  estimate_gas : nat -> ContractCall -> Exc Z;
  get_balance : nat -> Address -> Exc Z;
  balanceOf : nat -> Address -> Exc Z;
  get_transaction_count : nat -> Address -> Exc Z;
  sign_transaction : Transaction -> string -> Exc bytes;
  send_raw_transaction : nat -> bytes -> Exc TxHash;
  get_transaction_receipt : nat -> TxHash -> Exc (option Receipt);
  latency : nat -> N
}.

Record Config := mkConfig {
  my_address : Address;
  weth_contract_address : Address;
  private_key : string
}.

(** ** The monad *)

Inductive Res (A : Type) :=
| Ret (a : A)
| Raise (e : exn)
| OutOfFuel.
Arguments Ret {A} a.
Arguments Raise {A} e.
Arguments OutOfFuel {A}.

Definition M (A : Type) : Type := World -> Res A * World.

#[global] Instance M_ret : MRet M := fun A a w => (Ret a, w).

#[global] Instance M_bind : MBind M := fun A B f m w =>
  match m w with
  | (Ret a, w') => f a w'
  | (Raise e, w') => (Raise e, w')
  | (OutOfFuel, w') => (OutOfFuel, w')
  end.

Definition raise {A} (e : exn) : M A := fun w => (Raise e, w).

Definition out_of_fuel {A} : M A := fun w => (OutOfFuel, w).

Definition lift {A} (r : Exc A) : M A :=
  match r with Ok a => mret a | Err e => raise e end.

(** [try: body except <catches> as e: handler e] *)
Definition try_except {A} (body : M A) (catches : exn -> bool)
    (handler : exn -> M A) : M A := fun w =>
  match body w with
  | (Raise e, w') => if catches e then handler e w' else (Raise e, w')
  | r => r
  end.

(** [except Exception] and the bare [except:] *)
Definition any_Exception (e : exn) : bool := true.

(** [except (FileNotFoundError, json.JSONDecodeError)] *)
Definition missing_or_undecodable (e : exn) : bool :=
  match e with
  | FileNotFoundError | JSONDecodeError => true
  | _ => false
  end.

Definition log (ev : Event) : M unit := fun w =>
  (Ret tt, mkWorld (vars w) (file w) (now w) (calls w) (ev :: trace w)).

Definition print (m : Msg) : M unit := log (EvPrint m).

Definition time_time : M Z := fun w => (Ret (now w), w).

Definition time_sleep (d : Z) : M unit := fun w =>
  (Ret tt, mkWorld (vars w) (file w) (now w + d) (calls w)
                   (EvSleep d :: trace w)).

Definition get_vars : M Progress := fun w => (Ret (vars w), w).

(** An assignment to the counters. *)
Definition store (p : Progress) : M unit := fun w =>
  (Ret tt, mkWorld p (file w) (now w) (calls w) (EvStore p :: trace w)).

(** ** Bytes and hexadecimal text *)

Definition byte_of_Z (z : Z) : Byte.byte :=
  match Byte.of_N (Z.to_N (z mod 256)) with
  | Some b => b
  | None => Byte.x00
  end.

Definition Z_of_byte (b : Byte.byte) : Z := Z.of_N (Byte.to_N b).

(** The [len] low-order base-256 digits of [n], least significant first. *)
Fixpoint little_endian (len : nat) (n : Z) : bytes :=
  match len with
  | O => []
  | S len' => byte_of_Z n :: little_endian len' (n / 256)
  end.

(** [n.to_bytes(len, 'big')] *)
Definition to_bytes (n : Z) (len : nat) : Exc bytes :=
  if (n <? 0) || (256 ^ Z.of_nat len <=? n) then Err OverflowError
  else Ok (rev (little_endian len n)).

(** [int.from_bytes(bs, 'big')] *)
Definition from_bytes (bs : bytes) : Z :=
  fold_left (fun acc b => acc * 256 + Z_of_byte b) bs 0.

Definition hex_digit (d : Z) : ascii :=
  nth (Z.to_nat d) (list_ascii_of_string "0123456789abcdef") "0"%char.

(** [bs.hex()] *)
Fixpoint hex (bs : bytes) : string :=
  match bs with
  | [] => ""
  | b :: bs' =>
      String (hex_digit (Z_of_byte b / 16))
        (String (hex_digit (Z_of_byte b mod 16)) (hex bs'))
  end.

Section Bot.

Variable cfg : Config.
Variable web3 : Web3.

(** One remote call: the oracle's reply is logged, the clock moves by the
    call's latency, and an error reply is raised. *)
Definition remote {A} (reply : nat -> Exc A) (ev : Exc A -> Event) : M A :=
  fun w =>
  let r := reply (calls w) in
  let w' := mkWorld (vars w) (file w)
                    (now w + Z.of_N (latency web3 (calls w)))
                    (S (calls w)) (ev r :: trace w) in
  lift r w'.

(** ** Constants *)

(* web3.to_wei(0.4, 'ether') *)
Definition amount_in_wei : Z := 400000000000000000.
(* web3.to_wei(0.025, 'gwei') *)
Definition max_priority_fee_per_gas : Z := 25000000.
Definition max_fee_per_gas : Z := 25000000.

(** ** Chain queries *)

Definition check_eth_balance : M Z :=
  remote (fun i => get_balance web3 i (my_address cfg))
         (EvGetBalance (my_address cfg)).

Definition check_weth_balance : M Z :=
  remote (fun i => balanceOf web3 i (my_address cfg))
         (EvBalanceOf (my_address cfg)).

Definition get_next_nonce : M Z :=
  remote (fun i => get_transaction_count web3 i (my_address cfg))
         (EvGetTransactionCount (my_address cfg)).

Definition do_estimate_gas (c : ContractCall) : M Z :=
  remote (fun i => estimate_gas web3 i c) (EvEstimateGas c).

Definition deposit_call (amount : Z) : ContractCall :=
  Deposit amount (my_address cfg) amount.

Definition withdraw_call (amount : Z) : ContractCall :=
  Withdraw amount (my_address cfg).

Definition has_sufficient_balance (amount : Z) (is_wrap : bool) : M bool :=
  try_except
    (gas_estimate ←
       (if is_wrap then do_estimate_gas (deposit_call amount)
        else do_estimate_gas (withdraw_call amount));
     let total_cost := max_priority_fee_per_gas * gas_estimate in
     if is_wrap
     then bal ← check_eth_balance; mret (bal >=? total_cost)
     else bal ← check_weth_balance; mret (bal >=? amount))
    any_Exception
    (fun e => print (MsgErrorCheckingBalance e);; mret false).

(** ** Confirmation watcher *)

Definition get_receipt (tx_hash : TxHash) : M (option Receipt) :=
  remote (fun i => get_transaction_receipt web3 i tx_hash)
         (EvGetReceipt tx_hash).

(** The body of the [try] inside the polling loop: [Some b] when it
    executes [return b], [None] when control falls through to the sleep. *)
Definition poll_once (tx_hash : TxHash) : M (option bool) :=
  try_except
    (receipt ← get_receipt tx_hash;
     match receipt with
     | Some rc =>
         if status rc =? 1 then print (MsgConfirmed tx_hash);; mret (Some true)
         else if status rc =? 0
              then print (MsgReverted tx_hash);; mret (Some false)
              else mret None
     | None => mret None
     end)
    any_Exception
    (fun _ => mret None).

Fixpoint wait_loop (fuel : nat) (tx_hash : TxHash) (timeout start_time : Z)
    : M bool :=
  (t ← time_time;
   if t - start_time <? timeout then
     match fuel with
     | O => out_of_fuel
     | S fuel' =>
         r ← poll_once tx_hash;
         match r with
         | Some b => mret b
         | None => time_sleep 30;; wait_loop fuel' tx_hash timeout start_time
         end
     end
   else print (MsgTimeout tx_hash);; mret false) : M bool.

(** Every pass through the loop sleeps 30, so the loop cannot start more
    than [timeout / 30 + 1] passes ([wait_for_confirmation_returns]). *)
Definition max_polls (timeout : Z) : nat := S (Z.to_nat (timeout / 30)).

Definition wait_for_confirmation (tx_hash : TxHash) (timeout : Z) : M bool :=
  start_time ← time_time;
  wait_loop (max_polls timeout) tx_hash timeout start_time.

(** ** Building and sending the two transactions *)

Definition do_sign (tx : Transaction) : M bytes := fun w =>
  let r := sign_transaction web3 tx (private_key cfg) in
  lift r (mkWorld (vars w) (file w) (now w) (calls w)
                  (EvSign tx r :: trace w)).

Definition do_send (raw : bytes) : M TxHash :=
  remote (fun i => send_raw_transaction web3 i raw) (EvSendRaw raw).

Definition wrap_transaction (nonce gas_estimate amount : Z) : Transaction :=
  {| tx_to := weth_contract_address cfg;
     tx_chainId := 167000;
     tx_gas := gas_estimate;
     tx_maxFeePerGas := max_fee_per_gas;
     tx_maxPriorityFeePerGas := max_priority_fee_per_gas;
     tx_nonce := nonce;
     tx_value := Some amount;
     tx_data := "0xd0e30db0" |}.

Definition wrap_eth_to_weth (amount : Z) : M bool :=
  ok ← has_sufficient_balance amount true;
  if negb ok then print MsgInsufficientEth;; mret false
  else
    nonce ← get_next_nonce;
    gas_estimate ← do_estimate_gas (deposit_call amount);
    let transaction := wrap_transaction nonce gas_estimate amount in
    signed_txn ← do_sign transaction;
    try_except
      (tx_hash ← do_send signed_txn;
       print (MsgWrapSent tx_hash);;
       wait_for_confirmation tx_hash 300)
      any_Exception
      (fun e => print (MsgErrorSendingWrap e);; mret false).

Definition unwrap_transaction (nonce gas_estimate : Z) (arg : bytes)
    : Transaction :=
  {| tx_to := weth_contract_address cfg;
     tx_chainId := 167000;
     tx_gas := gas_estimate;
     tx_maxFeePerGas := max_fee_per_gas;
     tx_maxPriorityFeePerGas := max_priority_fee_per_gas;
     tx_nonce := nonce;
     tx_value := None;
     tx_data := "0x2e1a7d4d" +:+ hex arg |}.

Definition unwrap_weth_to_eth (amount : Z) : M bool :=
  ok ← has_sufficient_balance amount false;
  if negb ok then print MsgInsufficientWeth;; mret false
  else
    nonce ← get_next_nonce;
    gas_estimate ← do_estimate_gas (withdraw_call amount);
    arg ← lift (to_bytes amount 32);
    let transaction := unwrap_transaction nonce gas_estimate arg in
    signed_txn ← do_sign transaction;
    try_except
      (tx_hash ← do_send signed_txn;
       print (MsgUnwrapSent tx_hash);;
       wait_for_confirmation tx_hash 300)
      any_Exception
      (fun e => print (MsgErrorSendingUnwrap e);; mret false).

(** ** Progress store *)

Definition status_dict (wrap_counter unwrap_counter total_tx : Z)
    : gmap string Z :=
  <["wrap_counter" := wrap_counter]>
    (<["unwrap_counter" := unwrap_counter]>
       (<["total_tx" := total_tx]> ∅)).

(** [with open(..., 'w') as f: json.dump(status, f)], taken to succeed and
    to leave the whole object in the file. *)
Definition save_transaction_status (wrap_counter unwrap_counter total_tx : Z)
    : M unit := fun w =>
  (Ret tt,
   mkWorld (vars w)
           (Some (JsonObject
                    (status_dict wrap_counter unwrap_counter total_tx)))
           (now w) (calls w)
           (EvSave (mkProgress wrap_counter unwrap_counter total_tx)
              :: trace w)).

(** [with open(...) as f: status = json.load(f)] *)
Definition open_and_load : M FileContent := fun w =>
  match file w with
  | None => (Raise FileNotFoundError, w)
  | Some NotJson => (Raise JSONDecodeError, w)
  | Some (Unreadable e) => (Raise e, w)
  | Some c => (Ret c, w)
  end.

(** [status[key]] *)
Definition subscript (st : FileContent) (key : string) : M Z :=
  match st with
  | JsonObject d =>
      match d !! key with
      | Some v => mret v
      | None => raise (KeyError key)
      end
  | _ => raise TypeError
  end.

Definition load_transaction_status : M Progress :=
  try_except
    (st ← open_and_load;
     w ← subscript st "wrap_counter";
     u ← subscript st "unwrap_counter";
     t ← subscript st "total_tx";
     mret (mkProgress w u t))
    missing_or_undecodable
    (fun _ => mret (mkProgress 0 0 0)).

Definition path_exists : M bool := fun w =>
  (Ret (match file w with Some _ => true | None => false end), w).

Definition os_remove : M unit := fun w =>
  match file w with
  | Some _ =>
      (Ret tt, mkWorld (vars w) None (now w) (calls w) (EvRemove :: trace w))
  | None => (Raise FileNotFoundError, w)
  end.

(** ** The main loop *)

(** [if wrap_counter < 45 and total_tx < 90: ...] *)
Definition wrap_branch : M unit :=
  v ← get_vars;
  if (wrap_counter v <? 45) && (total_tx v <? 90) then
    ok ← wrap_eth_to_weth amount_in_wei;
    if (ok : bool) then
      v ← get_vars;
      store (mkProgress (wrap_counter v + 1) (unwrap_counter v) (total_tx v));;
      v ← get_vars;
      store (mkProgress (wrap_counter v) (unwrap_counter v) (total_tx v + 1));;
      v ← get_vars;
      print (MsgTotalWrapping (total_tx v) (wrap_counter v));;
      save_transaction_status (wrap_counter v) (unwrap_counter v) (total_tx v)
    else mret tt
  else mret tt.

(** [if unwrap_counter < 45 and total_tx < 90: ...] *)
Definition unwrap_branch : M unit :=
  v ← get_vars;
  if (unwrap_counter v <? 45) && (total_tx v <? 90) then
    ok ← unwrap_weth_to_eth amount_in_wei;
    if (ok : bool) then
      v ← get_vars;
      store (mkProgress (wrap_counter v) (unwrap_counter v + 1) (total_tx v));;
      v ← get_vars;
      store (mkProgress (wrap_counter v) (unwrap_counter v) (total_tx v + 1));;
      v ← get_vars;
      print (MsgTotalUnwrapping (total_tx v) (unwrap_counter v));;
      save_transaction_status (wrap_counter v) (unwrap_counter v) (total_tx v)
    else mret tt
  else mret tt.

(** [if total_tx >= 90: ...; break]: the result tells whether the loop is
    left. *)
Definition quota_check : M bool :=
  v ← get_vars;
  if total_tx v >=? 90 then
    present ← path_exists;
    (if (present : bool) then os_remove;; print MsgFileDeleted else mret tt);;
    mret true
  else mret false.

Fixpoint main_loop (fuel : nat) : M unit :=
  (v ← get_vars;
   if total_tx v <? 90 then
     match fuel with
     | O => out_of_fuel
     | S fuel' =>
         wrap_branch;;
         unwrap_branch;;
         stop ← quota_check;
         if (stop : bool) then mret tt
         else time_sleep 10;; main_loop fuel'
     end
   else mret tt) : M unit.

(** The script from the point where the counters are loaded. *)
Definition bot (fuel : nat) : M unit :=
  p ← load_transaction_status;
  store p;;
  main_loop fuel.

End Bot.

(** ** Sample environments *)

Definition sample_cfg : Config :=
  {| my_address := "0xA11ce";
     weth_contract_address := "0xA51EF638e99220FFBE2AE3F63a5E88b5F0F8D8c0";
     private_key := "k" |}.

(** A node on which everything succeeds at once. *)
Definition obliging_web3 : Web3 :=
  {| estimate_gas := fun _ _ => Ok 45000;
     get_balance := fun _ _ => Ok 1000000000000000000;
     balanceOf := fun _ _ => Ok 1000000000000000000;
     get_transaction_count := fun i _ => Ok (Z.of_nat i);
     sign_transaction := fun _ _ => Ok [Byte.x01];
     send_raw_transaction := fun _ _ => Ok [Byte.xaa];
     get_transaction_receipt := fun _ _ => Ok (Some (mkReceipt 1));
     latency := fun _ => 1%N |}.

Definition world0 (p : Progress) (f : option FileContent) : World :=
  mkWorld p f 0 0 [].

(** * Vocabulary of the statements *)

(** ** Frames *)

(** [drift_by allowed w w']: from [w] to [w'] time has passed and events
    satisfying [allowed] have been logged, but the counters and the status
    file are as they were. *)
Definition drift_by (allowed : Event -> bool) (w w' : World) : Prop :=
  vars w' = vars w /\ file w' = file w /\ now w <= now w' /\
  exists evs, trace w' = evs ++ trace w /\ forallb allowed evs = true.

(** A computation all of whose runs are such drifts. *)
Definition quiet_by (allowed : Event -> bool) {A} (m : M A) : Prop :=
  forall w, drift_by allowed w (snd (m w)).

(** Events that touch neither the counters nor the status file. *)
Definition quiet_event (ev : Event) : bool :=
  match ev with
  | EvStore _ | EvSave _ | EvRemove => false
  | _ => true
  end.

(** Among those, the ones that belong neither to fetching the sequence
    number nor to signing. *)
Definition side_event (ev : Event) : bool :=
  match ev with
  | EvStore _ | EvSave _ | EvRemove => false
  | EvGetTransactionCount _ _ | EvSign _ _ => false
  | _ => true
  end.

Definition drift : World -> World -> Prop := drift_by quiet_event.
Definition quiet {A} (m : M A) : Prop := quiet_by quiet_event m.

(** ** One cycle of the main loop *)

Inductive Kind := Wrap | Unwrap.

(** The guard in front of each attempt. *)
Definition eligible (k : Kind) (p : Progress) : bool :=
  match k with
  | Wrap => (wrap_counter p <? 45) && (total_tx p <? 90)
  | Unwrap => (unwrap_counter p <? 45) && (total_tx p <? 90)
  end.

(** The counters after [x_counter += 1], and after [total_tx += 1]. *)
Definition bump_own (k : Kind) (p : Progress) : Progress :=
  match k with
  | Wrap => mkProgress (wrap_counter p + 1) (unwrap_counter p) (total_tx p)
  | Unwrap => mkProgress (wrap_counter p) (unwrap_counter p + 1) (total_tx p)
  end.

Definition bump_total (p : Progress) : Progress :=
  mkProgress (wrap_counter p) (unwrap_counter p) (total_tx p + 1).

Definition total_msg (k : Kind) (p : Progress) : Msg :=
  match k with
  | Wrap => MsgTotalWrapping (total_tx p) (wrap_counter p)
  | Unwrap => MsgTotalUnwrapping (total_tx p) (unwrap_counter p)
  end.

(** The world after the four statements that follow a confirmed attempt. *)
Definition counted (k : Kind) (w : World) : World :=
  let p1 := bump_own k (vars w) in
  let p2 := bump_total p1 in
  mkWorld p2
    (Some (JsonObject
             (status_dict (wrap_counter p2) (unwrap_counter p2) (total_tx p2))))
    (now w) (calls w)
    (EvSave p2 :: EvPrint (total_msg k p2) :: EvStore p2 :: EvStore p1
       :: trace w).

(** The world after the status file has been deleted at the quota. *)
Definition cleared (w : World) : World :=
  match file w with
  | Some _ =>
      mkWorld (vars w) None (now w) (calls w)
              (EvPrint MsgFileDeleted :: EvRemove :: trace w)
  | None => w
  end.

Definition slept (d : Z) (w : World) : World :=
  mkWorld (vars w) (file w) (now w + d) (calls w) (EvSleep d :: trace w).

Definition attempt (cfg : Config) (web3 : Web3) (k : Kind) : M bool :=
  match k with
  | Wrap => wrap_eth_to_weth cfg web3 amount_in_wei
  | Unwrap => unwrap_weth_to_eth cfg web3 amount_in_wei
  end.

Definition branch (cfg : Config) (web3 : Web3) (k : Kind) : M unit :=
  match k with
  | Wrap => wrap_branch cfg web3
  | Unwrap => unwrap_branch cfg web3
  end.

(** ** The counters and the status file *)

Definition consistent (p : Progress) : Prop :=
  total_tx p = wrap_counter p + unwrap_counter p.

Definition within_quota (p : Progress) : Prop :=
  wrap_counter p <= 45 /\ unwrap_counter p <= 45 /\ total_tx p <= 90.

(** A status file as [save_transaction_status] writes it: a JSON object
    with the three members. *)
Definition is_status_record (f : option FileContent) : bool :=
  match f with
  | Some (JsonObject d) =>
      match d !! "wrap_counter", d !! "unwrap_counter", d !! "total_tx" with
      | Some _, Some _, Some _ => true
      | _, _, _ => false
      end
  | _ => false
  end.

(** ** The watcher *)

(** What one poll makes of the node's reply: [Some true] for a receipt
    with status 1, [Some false] for a receipt with status 0, and [None]
    (poll again) when there is no receipt yet, when the receipt has another
    status, and when the query raised. *)
Definition verdict (r : Exc (option Receipt)) : option bool :=
  match r with
  | Ok (Some rc) =>
      if status rc =? 1 then Some true
      else if status rc =? 0 then Some false
      else None
  | _ => None
  end.

(** The world after one poll. *)
Definition polled (web3 : Web3) (tx_hash : TxHash) (w : World) : World :=
  let r := get_transaction_receipt web3 (calls w) tx_hash in
  let t := now w + Z.of_N (latency web3 (calls w)) in
  let said :=
    match verdict r with
    | Some true => [EvPrint (MsgConfirmed tx_hash)]
    | Some false => [EvPrint (MsgReverted tx_hash)]
    | None => []
    end in
  mkWorld (vars w) (file w) t (S (calls w))
          (said ++ EvGetReceipt tx_hash r :: trace w).

(** The clock at the [k]-th coming test of the loop condition, for a
    watcher whose next remote call is the [c]-th of the run and whose
    clock reads [t], as long as no poll is decisive.  It depends on the
    latencies only, not on what the node replies. *)
Fixpoint poll_time (web3 : Web3) (c : nat) (t : Z) (k : nat) : Z :=
  match k with
  | O => t
  | S k' => poll_time web3 (S c) (t + Z.of_N (latency web3 c) + 30) k'
  end.

Inductive Outcome := Confirmed | Reverted | TimedOut.

(** How [wait_for_confirmation] reports an outcome: by the value it
    returns and by the line it prints last. *)
Definition reported (o : Outcome) (tx_hash : TxHash)
    (out : Res bool * World) : Prop :=
  match o with
  | Confirmed =>
      fst out = Ret true /\
      head (trace (snd out)) = Some (EvPrint (MsgConfirmed tx_hash))
  | Reverted =>
      fst out = Ret false /\
      head (trace (snd out)) = Some (EvPrint (MsgReverted tx_hash))
  | TimedOut =>
      fst out = Ret false /\
      head (trace (snd out)) = Some (EvPrint (MsgTimeout tx_hash))
  end.

(** The first [n] polls fall within the window and are not decisive. *)
Definition pending (web3 : Web3) (tx_hash : TxHash) (timeout start_time : Z)
    (c : nat) (t : Z) (n : nat) : Prop :=
  forall k, (k < n)%nat ->
    poll_time web3 c t k - start_time < timeout /\
    verdict (get_transaction_receipt web3 (c + k) tx_hash) = None.

(** ** Payloads and the ends of an attempt *)

(** The selectors that open the data of the two transactions. *)
Definition deposit_selector : bytes :=
  [Byte.xd0; Byte.xe3; Byte.x0d; Byte.xb0].
Definition withdraw_selector : bytes :=
  [Byte.x2e; Byte.x1a; Byte.x7d; Byte.x4d].

(** Among the events [evs] of one call, the transaction [tx] was signed
    right after a gas estimate and, before that, a query of the sequence
    number whose reply is the nonce of [tx]. *)
Definition built_on_fresh_nonce (cfg : Config) (evs : list Event)
    (tx : Transaction) (signed : Exc bytes) : Prop :=
  exists after before c gas,
    evs = after ++ EvSign tx signed :: EvEstimateGas c (Ok gas)
            :: EvGetTransactionCount (my_address cfg) (Ok (tx_nonce tx))
            :: before.

(** Among the events [evs] of one call, the transaction [tx] was handed to
    the signer together with the private key, and what the signer
    returned, if it returned, was broadcast. *)
Definition signs_and_sends (cfg : Config) (web3 : Web3) (evs : list Event)
    (tx : Transaction) : Prop :=
  In (EvSign tx (sign_transaction web3 tx (private_key cfg))) evs /\
  forall raw, sign_transaction web3 tx (private_key cfg) = Ok raw ->
    exists reply, In (EvSendRaw raw reply) evs.

(** The four ways an attempt fails without raising, by the line printed
    last. *)
Inductive Failure :=
| InsufficientBalance
| SubmitError
| RevertedOnChain
| NoConfirmation.

Definition failure_of (m : Msg) : option Failure :=
  match m with
  | MsgInsufficientEth | MsgInsufficientWeth => Some InsufficientBalance
  | MsgErrorSendingWrap _ | MsgErrorSendingUnwrap _ => Some SubmitError
  | MsgReverted _ => Some RevertedOnChain
  | MsgTimeout _ => Some NoConfirmation
  | _ => None
  end.

(** What the end of an attempt looks like: [True] after the line
    "Confirmed", [False] after one of the four failure lines, or an
    exception raised right after a logged call, with no line printed for
    it. *)
Definition ends_well (out : Res bool * World) : Prop :=
  match fst out with
  | Ret true =>
      exists h, head (trace (snd out)) = Some (EvPrint (MsgConfirmed h))
  | Ret false =>
      exists m f, head (trace (snd out)) = Some (EvPrint m) /\
                  failure_of m = Some f
  | Raise _ =>
      exists ev, head (trace (snd out)) = Some ev /\
                 forall m, ev <> EvPrint m
  | OutOfFuel => False
  end.

(** The world in which an iteration of the main loop that starts in [w0]
    tests the guard of [k]: [w0] itself for a wrap; for an unwrap, the
    world in which the wrap branch has returned. *)
Definition at_guard (cfg : Config) (web3 : Web3) (k : Kind)
    (w0 wk : World) : Prop :=
  match k with
  | Wrap => wk = w0
  | Unwrap => branch cfg web3 Wrap w0 = (Ret tt, wk)
  end.

(** The world [w2] in which the two branches of an iteration are over,
    when the branch of [k] has left the world [w1]: after a wrap the
    unwrap branch is still to run and return; after an unwrap nothing. *)
Definition branches_over (cfg : Config) (web3 : Web3) (k : Kind)
    (w1 w2 : World) : Prop :=
  match k with
  | Wrap => branch cfg web3 Unwrap w1 = (Ret tt, w2)
  | Unwrap => w2 = w1
  end.

(** The first event of a wrap attempt: the gate's estimate of a deposit. *)
Definition is_deposit_estimate (ev : Event) : bool :=
  match ev with
  | EvEstimateGas (Deposit _ _ _) _ => true
  | _ => false
  end.

(** ** More sample environments *)

(** A node whose second gas estimate of the run fails: the first one, made
    by the balance gate, succeeds, and so do the balance and the sequence
    number queries. *)
Definition flaky_estimate_web3 : Web3 :=
  {| estimate_gas := fun i _ =>
       if Nat.eqb i 3 then Err (Web3Exception 503) else Ok 45000;
     get_balance := get_balance obliging_web3;
     balanceOf := balanceOf obliging_web3;
     get_transaction_count := get_transaction_count obliging_web3;
     sign_transaction := sign_transaction obliging_web3;
     send_raw_transaction := send_raw_transaction obliging_web3;
     get_transaction_receipt := get_transaction_receipt obliging_web3;
     latency := latency obliging_web3 |}.

(** A client that cannot sign. *)
Definition unsigning_web3 : Web3 :=
  {| estimate_gas := estimate_gas obliging_web3;
     get_balance := get_balance obliging_web3;
     balanceOf := balanceOf obliging_web3;
     get_transaction_count := get_transaction_count obliging_web3;
     sign_transaction := fun _ _ => Err TypeError;
     send_raw_transaction := send_raw_transaction obliging_web3;
     get_transaction_receipt := get_transaction_receipt obliging_web3;
     latency := latency obliging_web3 |}.

(** An account without funds. *)
Definition broke_web3 : Web3 :=
  {| estimate_gas := estimate_gas obliging_web3;
     get_balance := fun _ _ => Ok 0;
     balanceOf := fun _ _ => Ok 0;
     get_transaction_count := get_transaction_count obliging_web3;
     sign_transaction := sign_transaction obliging_web3;
     send_raw_transaction := send_raw_transaction obliging_web3;
     get_transaction_receipt := get_transaction_receipt obliging_web3;
     latency := latency obliging_web3 |}.

(** A node that rejects the first two receipt queries of a watcher started
    at call 0 and then has a successful receipt; every call takes 40. *)
Definition slow_web3 : Web3 :=
  {| estimate_gas := estimate_gas obliging_web3;
     get_balance := get_balance obliging_web3;
     balanceOf := balanceOf obliging_web3;
     get_transaction_count := get_transaction_count obliging_web3;
     sign_transaction := sign_transaction obliging_web3;
     send_raw_transaction := send_raw_transaction obliging_web3;
     get_transaction_receipt := fun i _ =>
       if Nat.ltb i 2 then Err (Web3Exception 404)
       else Ok (Some (mkReceipt 1));
     latency := fun _ => 40%N |}.

(** An account with wrapped tokens and no native balance: wraps are
    refused by the gate, unwraps go through. *)
Definition dry_web3 : Web3 :=
  {| estimate_gas := estimate_gas obliging_web3;
     get_balance := fun _ _ => Ok 0;
     balanceOf := balanceOf obliging_web3;
     get_transaction_count := get_transaction_count obliging_web3;
     sign_transaction := sign_transaction obliging_web3;
     send_raw_transaction := send_raw_transaction obliging_web3;
     get_transaction_receipt := get_transaction_receipt obliging_web3;
     latency := latency obliging_web3 |}.

(** The same account on a client that cannot sign. *)
Definition dry_unsigning_web3 : Web3 :=
  {| estimate_gas := estimate_gas obliging_web3;
     get_balance := fun _ _ => Ok 0;
     balanceOf := balanceOf obliging_web3;
     get_transaction_count := get_transaction_count obliging_web3;
     sign_transaction := fun _ _ => Err TypeError;
     send_raw_transaction := send_raw_transaction obliging_web3;
     get_transaction_receipt := get_transaction_receipt obliging_web3;
     latency := latency obliging_web3 |}.

Definition zero_progress : Progress := mkProgress 0 0 0.

(** Counters that do not add up, as a status file edited by hand can hold
    them: one short of the quota with nothing counted. *)
Definition skewed_world : World := world0 (mkProgress 0 0 89) None.

(** No status file, counters at zero. *)
Definition fresh_world : World := world0 zero_progress None.

(** Two confirmations short of the quota. *)
Definition near_quota : World := world0 (mkProgress 44 44 88) None.

(** A status file left behind with the quota already met, as after a
    crash between the last save and the removal. *)
Definition stale_world : World :=
  world0 zero_progress (Some (JsonObject (status_dict 45 45 90))).

(** A status file holding the JSON object [{}]. *)
Definition empty_object_world : World :=
  world0 zero_progress (Some (JsonObject ∅)).

(** A status file cut short in the middle of a write. *)
Definition truncated_world : World := world0 zero_progress (Some NotJson).

(** A status file whose bytes are not text. *)
Definition undecodable_world : World :=
  world0 zero_progress (Some (Unreadable UnicodeDecodeError)).

Definition near_quota_run : Res unit * World :=
  main_loop sample_cfg obliging_web3 5 near_quota.

Definition broke_attempt : Res bool * World :=
  attempt sample_cfg broke_web3 Wrap fresh_world.

(** The unwrap branch that follows it in the same iteration. *)
Definition broke_cycle : Res unit * World :=
  branch sample_cfg broke_web3 Unwrap (snd broke_attempt).

(** ** Start-up

    The statements at the top of the script that read the configuration
    from the environment.  [os.getenv] is a lookup in the environment;
    [Web3.to_checksum_address] and [web3.is_connected] belong to the
    library and the network, and are parameters. *)

Inductive StartupError :=
| RuntimeError (msg : string)
| InvalidAddress (given : string).

(** [not v], for the result of [os.getenv]: unset or empty. *)
Definition unset (v : option string) : bool :=
  match v with
  | None => true
  | Some s => if String.eqb s "" then true else false
  end.

(** [os.getenv(name)], raising [RuntimeError(msg)] when [not] it. *)
Definition require_env (env : gmap string string) (name msg : string)
    : StartupError + string :=
  match env !! name with
  | Some v => if unset (Some v) then inl (RuntimeError msg) else inr v
  | None => inl (RuntimeError msg)
  end.

Definition checksum (to_checksum_address : string -> option string)
    (given : string) : StartupError + Address :=
  match to_checksum_address given with
  | Some a => inr a
  | None => inl (InvalidAddress given)
  end.

(** Lines 6 to 30 of the script, in their order. *)
Definition startup (to_checksum_address : string -> option string)
    (is_connected : string -> bool) (env : gmap string string)
    : StartupError + Config :=
  match require_env env "TAIKO_RPC_URL"
          "Missing TAIKO_RPC_URL in environment variables." with
  | inl e => inl e
  | inr taiko_rpc_url =>
  if negb (is_connected taiko_rpc_url)
  then inl (RuntimeError "Error: Cannot connect to Taiko network.")
  else
  match require_env env "PRIVATE_KEY"
          "Missing PRIVATE_KEY in environment variables." with
  | inl e => inl e
  | inr private_key =>
  match require_env env "MY_ADDRESS"
          "Missing MY_ADDRESS in environment variables." with
  | inl e => inl e
  | inr my_address_env =>
  match checksum to_checksum_address my_address_env with
  | inl e => inl e
  | inr my_address =>
  match require_env env "WETH_CONTRACT_ADDRESS"
          "Missing WETH_CONTRACT_ADDRESS in environment variables." with
  | inl e => inl e
  | inr weth_contract_env =>
  match checksum to_checksum_address weth_contract_env with
  | inl e => inl e
  | inr weth_contract_address =>
      inr (mkConfig my_address weth_contract_address private_key)
  end end end end end end.

(** A variable of the environment that is set and not empty. *)
Definition provided (env : gmap string string) (name value : string) : Prop :=
  env !! name = Some value /\ value <> "".

(** ** Counting events *)

Fixpoint count (f : Event -> bool) (t : list Event) : nat :=
  match t with
  | [] => O
  | ev :: t' => if f ev then S (count f t') else count f t'
  end.

Definition is_save (ev : Event) : bool :=
  match ev with EvSave _ => true | _ => false end.

Definition is_confirmation (ev : Event) : bool :=
  match ev with EvPrint (MsgConfirmed _) => true | _ => false end.

Definition is_broadcast (ev : Event) : bool :=
  match ev with EvSendRaw _ _ => true | _ => false end.

Definition is_receipt_query (ev : Event) : bool :=
  match ev with EvGetReceipt _ _ => true | _ => false end.

(** What a restart would load is what the counters are in memory. *)
Definition in_sync (w : World) : Prop :=
  load_transaction_status w = (Ret (vars w), w).

(** Every attempt made from any world confirms. *)
Definition always_confirms (cfg : Config) (web3 : Web3) : Prop :=
  forall k w, fst (attempt cfg web3 k w) = Ret true.

(** ** The events of an attempt *)

(** What the balance gate may log. *)
Definition gate_event (ev : Event) : bool :=
  match ev with
  | EvEstimateGas _ _ | EvGetBalance _ _ | EvBalanceOf _ _ => true
  | EvPrint (MsgErrorCheckingBalance _) => true
  | _ => false
  end.

(** What the watcher may log. *)
Definition watch_event (ev : Event) : bool :=
  match ev with
  | EvGetReceipt _ _ | EvSleep _ => true
  | EvPrint (MsgConfirmed _) | EvPrint (MsgReverted _)
  | EvPrint (MsgTimeout _) => true
  | _ => false
  end.

(** The shapes the events of one attempt can take, newest first, with the
    result of the attempt.  [g] stands for the events of the balance gate,
    [call] for the contract call whose gas is estimated, [build] for the
    construction of the transaction dict from the nonce and the estimate,
    and the three messages for the lines of the attempt. *)
Inductive AttemptShape (cfg : Config) (web3 : Web3) (call : ContractCall)
    (build : Z -> Z -> Exc Transaction)
    (insufficient : Msg) (sent : TxHash -> Msg) (failed : exn -> Msg)
    : Res bool -> list Event -> Prop :=
| shape_refused g :
    forallb gate_event g = true ->
    AttemptShape cfg web3 call build insufficient sent failed
      (Ret false) (EvPrint insufficient :: g)
| shape_no_nonce g e :
    forallb gate_event g = true ->
    AttemptShape cfg web3 call build insufficient sent failed
      (Raise e) (EvGetTransactionCount (my_address cfg) (Err e) :: g)
| shape_no_estimate g nonce e :
    forallb gate_event g = true ->
    AttemptShape cfg web3 call build insufficient sent failed
      (Raise e)
      (EvEstimateGas call (Err e)
         :: EvGetTransactionCount (my_address cfg) (Ok nonce) :: g)
| shape_not_built g nonce gas e :
    forallb gate_event g = true ->
    build nonce gas = Err e ->
    AttemptShape cfg web3 call build insufficient sent failed
      (Raise e)
      (EvEstimateGas call (Ok gas)
         :: EvGetTransactionCount (my_address cfg) (Ok nonce) :: g)
| shape_not_signed g nonce gas tx e :
    forallb gate_event g = true ->
    build nonce gas = Ok tx ->
    AttemptShape cfg web3 call build insufficient sent failed
      (Raise e)
      (EvSign tx (Err e) :: EvEstimateGas call (Ok gas)
         :: EvGetTransactionCount (my_address cfg) (Ok nonce) :: g)
| shape_not_sent g nonce gas tx raw e :
    forallb gate_event g = true ->
    build nonce gas = Ok tx ->
    AttemptShape cfg web3 call build insufficient sent failed
      (Ret false)
      (EvPrint (failed e) :: EvSendRaw raw (Err e)
         :: EvSign tx (Ok raw) :: EvEstimateGas call (Ok gas)
         :: EvGetTransactionCount (my_address cfg) (Ok nonce) :: g)
| shape_watched g nonce gas tx raw h (b : bool) watch :
    forallb gate_event g = true ->
    build nonce gas = Ok tx ->
    forallb watch_event watch = true ->
    count is_confirmation watch = (if b then 1%nat else 0%nat) ->
    AttemptShape cfg web3 call build insufficient sent failed
      (Ret b)
      (watch ++ EvPrint (sent h) :: EvSendRaw raw (Ok h)
         :: EvSign tx (Ok raw) :: EvEstimateGas call (Ok gas)
         :: EvGetTransactionCount (my_address cfg) (Ok nonce) :: g).

(** The two instances. *)
Definition build_wrap (cfg : Config) (amount nonce gas : Z) : Exc Transaction :=
  Ok (wrap_transaction cfg nonce gas amount).

Definition build_unwrap (cfg : Config) (amount nonce gas : Z)
    : Exc Transaction :=
  match to_bytes amount 32 with
  | Ok arg => Ok (unwrap_transaction cfg nonce gas arg)
  | Err e => Err e
  end.

Definition WrapShape (cfg : Config) (web3 : Web3) (amount : Z)
    : Res bool -> list Event -> Prop :=
  AttemptShape cfg web3 (deposit_call cfg amount) (build_wrap cfg amount)
    MsgInsufficientEth MsgWrapSent MsgErrorSendingWrap.

Definition UnwrapShape (cfg : Config) (web3 : Web3) (amount : Z)
    : Res bool -> list Event -> Prop :=
  AttemptShape cfg web3 (withdraw_call cfg amount) (build_unwrap cfg amount)
    MsgInsufficientWeth MsgUnwrapSent MsgErrorSendingUnwrap.

(** The events [evs] of one attempt with result [r] contain at most one
    broadcast, none if the attempt raised, and each broadcast sends the
    bytes that the signing logged just before it returned. *)
Definition broadcasts_what_was_signed (r : Res bool) (evs : list Event)
    : Prop :=
  (count is_broadcast evs <= 1)%nat /\
  (forall e, r = Raise e -> count is_broadcast evs = O) /\
  (forall raw reply, In (EvSendRaw raw reply) evs ->
     exists after tx before,
       evs = after ++ EvSendRaw raw reply :: EvSign tx (Ok raw) :: before).

(** Every transaction signed among the events [evs] has the chain id and
    the two fee fields of the script, and as gas limit the reply to the
    estimate of the call object [call] logged just before the signing. *)
Definition signed_with_fixed_fees (call : ContractCall) (evs : list Event)
    : Prop :=
  forall tx s, In (EvSign tx s) evs ->
    tx_chainId tx = 167000 /\
    tx_maxFeePerGas tx = 25000000 /\
    tx_maxPriorityFeePerGas tx = 25000000 /\
    exists after before,
      evs = after ++ EvSign tx s :: EvEstimateGas call (Ok (tx_gas tx))
              :: before.

(** The amount of an attempt as the 32-byte argument of [withdraw]. *)
Definition amount_word : bytes :=
  Eval vm_compute in
    match to_bytes amount_in_wei 32 with Ok arg => arg | Err _ => [] end.

(** A status file with three wraps and two unwraps on record. *)
Definition resumed_world : World :=
  world0 zero_progress (Some (JsonObject (status_dict 3 2 5))).

(** The script resumed there on the node whose gas estimate fails. *)
Definition crashed_run : Res unit * World :=
  bot sample_cfg flaky_estimate_web3 3 resumed_world.

(** One watcher call on the slow node. *)
Definition slow_watch : Res bool * World :=
  wait_for_confirmation slow_web3 [Byte.xaa] 300 fresh_world.

(** Sample environment variables. *)
Definition sample_env : gmap string string :=
  <["TAIKO_RPC_URL" := "https://rpc.example"]>
    (<["PRIVATE_KEY" := "k"]>
       (<["MY_ADDRESS" := "0xa11ce"]>
          (<["WETH_CONTRACT_ADDRESS" := "0xa51ef"]> ∅))).

(** A stand-in for the checksum: accepts what starts with "0x". *)
Definition sample_checksum (s : string) : option string :=
  match s with
  | String "0" (String "x" _) => Some s
  | _ => None
  end.

(** * Reasoning principles *)

Lemma bind_run {A B} (m : M A) (f : A -> M B) (w : World) :
  (m ≫= f) w =
  match m w with
  | (Ret a, w') => f a w'
  | (Raise e, w') => (Raise e, w')
  | (OutOfFuel, w') => (OutOfFuel, w')
  end.
Proof. reflexivity. Qed.

Lemma ret_run {A} (a : A) (w : World) : (mret a : M A) w = (Ret a, w).
Proof. reflexivity. Qed.

(** ** Frame properties *)
Section Drift.

Variable allowed : Event -> bool.

Lemma drift_by_refl w : drift_by allowed w w.
Proof. repeat split; try lia. exists []. split; reflexivity. Qed.

Lemma drift_by_trans w1 w2 w3 :
  drift_by allowed w1 w2 -> drift_by allowed w2 w3 -> drift_by allowed w1 w3.
Proof.
  intros (Hv & Hf & Hn & evs & Ht & Hq) (Hv' & Hf' & Hn' & evs' & Ht' & Hq').
  repeat split; try congruence; try lia.
  exists (evs' ++ evs). split.
  - rewrite Ht', Ht. now rewrite app_assoc.
  - rewrite forallb_app, Hq, Hq'. reflexivity.
Qed.

Lemma drift_by_step w n c ev :
  allowed ev = true -> now w <= n ->
  drift_by allowed w (mkWorld (vars w) (file w) n c (ev :: trace w)).
Proof.
  intros Hq Hn. repeat split; simpl; try lia.
  exists [ev]. split; [reflexivity | simpl; now rewrite Hq].
Qed.

Lemma quiet_by_ret {A} (a : A) : quiet_by allowed (mret a : M A).
Proof. intros w. apply drift_by_refl. Qed.

Lemma quiet_by_raise {A} e : quiet_by allowed (raise e : M A).
Proof. intros w. apply drift_by_refl. Qed.

Lemma quiet_by_out_of_fuel {A} : quiet_by allowed (out_of_fuel : M A).
Proof. intros w. apply drift_by_refl. Qed.

Lemma quiet_by_lift {A} (r : Exc A) : quiet_by allowed (lift r).
Proof. destruct r; [apply quiet_by_ret | apply quiet_by_raise]. Qed.

Lemma quiet_by_bind {A B} (m : M A) (f : A -> M B) :
  quiet_by allowed m -> (forall a, quiet_by allowed (f a)) ->
  quiet_by allowed (m ≫= f).
Proof.
  intros Hm Hf w. rewrite bind_run. specialize (Hm w).
  destruct (m w) as [[a | e |] w1]; simpl in *; try assumption.
  eapply drift_by_trans; [eassumption | apply Hf].
Qed.

Lemma quiet_by_try_except {A} (body : M A) catches handler :
  quiet_by allowed body -> (forall e, quiet_by allowed (handler e)) ->
  quiet_by allowed (try_except body catches handler).
Proof.
  intros Hb Hh w. unfold try_except. specialize (Hb w).
  destruct (body w) as [[a | e |] w1]; simpl in *; try assumption.
  destruct (catches e); simpl; [| assumption].
  eapply drift_by_trans; [eassumption | apply Hh].
Qed.

Lemma quiet_by_print m :
  allowed (EvPrint m) = true -> quiet_by allowed (print m).
Proof. intros Ha w. apply drift_by_step; [exact Ha | lia]. Qed.

Lemma quiet_by_time_time : quiet_by allowed time_time.
Proof. intros w. apply drift_by_refl. Qed.

Lemma quiet_by_time_sleep d :
  allowed (EvSleep d) = true -> 0 <= d -> quiet_by allowed (time_sleep d).
Proof. intros Ha Hd w. apply drift_by_step; [exact Ha | lia]. Qed.

Lemma quiet_by_get_vars : quiet_by allowed get_vars.
Proof. intros w. apply drift_by_refl. Qed.

Lemma quiet_by_remote web3 {A} (reply : nat -> Exc A) ev :
  (forall r, allowed (ev r) = true) -> quiet_by allowed (remote web3 reply ev).
Proof.
  intros Hev w. unfold remote.
  eapply drift_by_trans; [| apply quiet_by_lift].
  apply drift_by_step; [apply Hev | lia].
Qed.

End Drift.

Lemma quiet_by_weaken (P Q : Event -> bool) {A} (m : M A) :
  (forall ev, P ev = true -> Q ev = true) -> quiet_by P m -> quiet_by Q m.
Proof.
  intros HPQ Hm w. destruct (Hm w) as (Hv & Hf & Hn & evs & Ht & Hq).
  repeat split; try assumption. exists evs. split; [exact Ht |].
  rewrite forallb_forall in *. auto.
Qed.

Create HintDb quiet.
#[export] Hint Resolve quiet_by_ret quiet_by_raise quiet_by_out_of_fuel
  quiet_by_lift quiet_by_time_time quiet_by_get_vars : quiet.

Ltac quiet_step :=
  first
    [ apply quiet_by_bind; [| intros ?]
    | apply quiet_by_try_except; [| intros ?]
    | apply quiet_by_remote; intros ?; reflexivity
    | apply quiet_by_time_sleep; [reflexivity | lia]
    | apply quiet_by_print; reflexivity
    | solve [auto with quiet]
    | match goal with
      | |- quiet_by _ (if ?b then _ else _) => destruct b
      | |- quiet_by _ (match ?x with _ => _ end) => destruct x
      end ].

Ltac quiet_auto := repeat quiet_step.

Lemma side_event_quiet ev : side_event ev = true -> quiet_event ev = true.
Proof. destruct ev; simpl; congruence. Qed.

Lemma side_quiet {A} (m : M A) : quiet_by side_event m -> quiet m.
Proof. apply quiet_by_weaken, side_event_quiet. Qed.

Section Quiet.

Variable cfg : Config.
Variable web3 : Web3.

Lemma side_has_sufficient_balance amount is_wrap :
  quiet_by side_event (has_sufficient_balance cfg web3 amount is_wrap).
Proof.
  unfold has_sufficient_balance, do_estimate_gas, check_eth_balance,
    check_weth_balance.
  quiet_auto.
Qed.

Lemma side_poll_once tx_hash : quiet_by side_event (poll_once web3 tx_hash).
Proof. unfold poll_once, get_receipt. quiet_auto. Qed.

Lemma side_wait_loop fuel tx_hash timeout start_time :
  quiet_by side_event (wait_loop web3 fuel tx_hash timeout start_time).
Proof.
  induction fuel as [| fuel IH]; simpl.
  - quiet_auto.
  - pose proof (side_poll_once tx_hash). quiet_auto; assumption.
Qed.

Lemma side_wait_for_confirmation tx_hash timeout :
  quiet_by side_event (wait_for_confirmation web3 tx_hash timeout).
Proof.
  unfold wait_for_confirmation. apply quiet_by_bind; [auto with quiet |].
  intros ?. apply side_wait_loop.
Qed.

Lemma quiet_do_sign tx : quiet (do_sign cfg web3 tx).
Proof.
  intros w. unfold do_sign.
  eapply drift_by_trans; [| apply quiet_by_lift].
  apply drift_by_step; [reflexivity | lia].
Qed.

Lemma quiet_wrap_eth_to_weth amount : quiet (wrap_eth_to_weth cfg web3 amount).
Proof.
  pose proof (fun a b => side_quiet _ (side_has_sufficient_balance a b)).
  pose proof (fun a b => side_quiet _ (side_wait_for_confirmation a b)).
  pose proof quiet_do_sign.
  unfold quiet in *.
  unfold wrap_eth_to_weth, get_next_nonce, do_estimate_gas, do_send.
  quiet_auto; auto.
Qed.

Lemma quiet_unwrap_weth_to_eth amount :
  quiet (unwrap_weth_to_eth cfg web3 amount).
Proof.
  pose proof (fun a b => side_quiet _ (side_has_sufficient_balance a b)).
  pose proof (fun a b => side_quiet _ (side_wait_for_confirmation a b)).
  pose proof quiet_do_sign.
  unfold quiet in *.
  unfold unwrap_weth_to_eth, get_next_nonce, do_estimate_gas, do_send.
  quiet_auto; auto.
Qed.

End Quiet.

(** ** One cycle of the main loop, unfolded *)

Section Cycle.

Variable cfg : Config.
Variable web3 : Web3.

Lemma quiet_attempt k : quiet (attempt cfg web3 k).
Proof.
  destruct k; [apply quiet_wrap_eth_to_weth | apply quiet_unwrap_weth_to_eth].
Qed.

Lemma branch_run k w :
  branch cfg web3 k w =
  if eligible k (vars w) then
    match attempt cfg web3 k w with
    | (Ret true, w1) => (Ret tt, counted k w1)
    | (Ret false, w1) => (Ret tt, w1)
    | (Raise e, w1) => (Raise e, w1)
    | (OutOfFuel, w1) => (OutOfFuel, w1)
    end
  else (Ret tt, w).
Proof.
  destruct k; simpl; unfold wrap_branch, unwrap_branch;
    rewrite bind_run; simpl;
    (match goal with
     | |- context [if ?g then _ else _] => destruct g
     end; [| reflexivity]);
    rewrite bind_run;
    match goal with
    | |- context [match ?m with _ => _ end] =>
        destruct m as [[[|] | e |] w1]
    end; reflexivity.
Qed.

Lemma quota_check_run w :
  quota_check w =
  if total_tx (vars w) >=? 90 then (Ret true, cleared w) else (Ret false, w).
Proof.
  unfold quota_check, cleared. rewrite bind_run. simpl.
  destruct (total_tx (vars w) >=? 90); [| reflexivity].
  destruct w as [v [c |] n k t]; reflexivity.
Qed.

Lemma main_loop_run fuel w :
  main_loop cfg web3 fuel w =
  if total_tx (vars w) <? 90 then
    match fuel with
    | O => (OutOfFuel, w)
    | S fuel' =>
        match branch cfg web3 Wrap w with
        | (Ret _, w1) =>
            match branch cfg web3 Unwrap w1 with
            | (Ret _, w2) =>
                if total_tx (vars w2) >=? 90 then (Ret tt, cleared w2)
                else main_loop cfg web3 fuel' (slept 10 w2)
            | (Raise e, w2) => (Raise e, w2)
            | (OutOfFuel, w2) => (OutOfFuel, w2)
            end
        | (Raise e, w1) => (Raise e, w1)
        | (OutOfFuel, w1) => (OutOfFuel, w1)
        end
    end
  else (Ret tt, w).
Proof.
  destruct fuel as [| fuel']; simpl main_loop; rewrite bind_run; simpl;
    destruct (total_tx (vars w) <? 90); try reflexivity.
  rewrite bind_run.
  destruct (wrap_branch cfg web3 w) as [[[] | e |] w1]; try reflexivity.
  rewrite bind_run.
  destruct (unwrap_branch cfg web3 w1) as [[[] | e |] w2]; try reflexivity.
  rewrite bind_run, quota_check_run.
  destruct (total_tx (vars w2) >=? 90); reflexivity.
Qed.

(** *** Invariants of the loop

    A property of worlds that survives drift, the bookkeeping after a
    confirmed attempt, the deletion of the file and the sleep holds
    wherever the loop stops: on exit, on an uncaught exception, and after
    any number of iterations of a run that goes on. *)
Section Invariant.

Variable I : World -> Prop.
Hypothesis I_drift : forall w w', I w -> drift w w' -> I w'.
Hypothesis I_counted :
  forall k w, I w -> eligible k (vars w) = true -> I (counted k w).
Hypothesis I_cleared : forall w, I w -> I (cleared w).
Hypothesis I_slept : forall w, I w -> I (slept 10 w).

Lemma branch_invariant k w : I w -> I (snd (branch cfg web3 k w)).
Proof.
  intros HI. rewrite branch_run.
  destruct (eligible k (vars w)) eqn:Hg; [| exact HI].
  pose proof (quiet_attempt k w) as Hd.
  destruct (attempt cfg web3 k w) as [[[|] | e |] w1]; simpl in *; eauto.
  apply I_counted; [eauto |].
  destruct Hd as (Hv & _). now rewrite Hv.
Qed.

Lemma main_loop_invariant fuel : forall w,
  I w -> I (snd (main_loop cfg web3 fuel w)).
Proof.
  induction fuel as [| fuel IH]; intros w HI; rewrite main_loop_run;
    destruct (total_tx (vars w) <? 90); try exact HI.
  pose proof (branch_invariant Wrap w HI) as H1.
  destruct (branch cfg web3 Wrap w) as [[[] | e |] w1]; simpl in H1;
    try exact H1.
  pose proof (branch_invariant Unwrap w1 H1) as H2.
  destruct (branch cfg web3 Unwrap w1) as [[[] | e |] w2]; simpl in H2;
    try exact H2.
  destruct (total_tx (vars w2) >=? 90); simpl; auto.
Qed.

End Invariant.

End Cycle.

Lemma drift_loud_event w w' ev :
  drift w w' -> quiet_event ev = false -> In ev (trace w') -> In ev (trace w).
Proof.
  intros (_ & _ & _ & evs & Ht & Hq) Hev Hin.
  rewrite Ht in Hin. apply in_app_or in Hin. destruct Hin as [Hin | Hin].
  - rewrite forallb_forall in Hq. apply Hq in Hin. congruence.
  - exact Hin.
Qed.

Lemma cleared_vars w : vars (cleared w) = vars w.
Proof. unfold cleared. destruct (file w); reflexivity. Qed.

Lemma cleared_file w : file (cleared w) = None.
Proof. unfold cleared. destruct (file w) eqn:Hf; [reflexivity | exact Hf]. Qed.

Lemma cleared_event w ev :
  In ev (trace (cleared w)) ->
  ev = EvPrint MsgFileDeleted \/ ev = EvRemove \/ In ev (trace w).
Proof.
  unfold cleared. destruct (file w); simpl; [| tauto].
  intros [<- | [<- | H]]; tauto.
Qed.

Lemma eligible_true k p :
  eligible k p = true ->
  (match k with Wrap => wrap_counter p | Unwrap => unwrap_counter p end) < 45
  /\ total_tx p < 90.
Proof. destruct k; simpl; lia. Qed.

(** * The counters *)

(** C1.  Start the main loop with counters such that
    [total_tx = wrap_counter + unwrap_counter].  Wherever the run stops or
    has got to (exit, uncaught exception, or any number of iterations of a
    run that goes on), every [save_transaction_status] it has performed
    wrote counters with [total_tx = wrap_counter + unwrap_counter], and the
    counters in memory satisfy the same equation. *)
Theorem saved_counters_consistent cfg web3 fuel w r w' :
  consistent (vars w) ->
  main_loop cfg web3 fuel w = (r, w') ->
  consistent (vars w') /\
  forall p, In (EvSave p) (trace w') ->
            In (EvSave p) (trace w) \/ consistent p.
Proof.
  intros Hc Hrun.
  pose (I := fun x : World =>
    consistent (vars x) /\
    forall p, In (EvSave p) (trace x) ->
              In (EvSave p) (trace w) \/ consistent p).
  assert (HI : I (snd (main_loop cfg web3 fuel w))).
  { apply main_loop_invariant; subst I; simpl.
    - intros x x' [Hx Hs] Hd. split.
      + destruct Hd as (Hv & _). now rewrite Hv.
      + intros p Hp. apply Hs. eapply drift_loud_event; eauto.
    - intros k x [Hx Hs] _. unfold consistent in *. split.
      + destruct k; simpl; lia.
      + intros p [Hp | [Hp | [Hp | [Hp | Hp]]]]; try discriminate; auto.
        right. inversion Hp; subst. destruct k; simpl; lia.
    - intros x [Hx Hs]. rewrite cleared_vars. split; [exact Hx |].
      intros p Hp. apply cleared_event in Hp.
      destruct Hp as [Hp | [Hp | Hp]]; try discriminate; auto.
    - intros x [Hx Hs]. split; [exact Hx |].
      intros p [Hp | Hp]; [discriminate | auto].
    - split; [exact Hc | auto]. }
  rewrite Hrun in HI. exact HI.
Qed.

(** C2.  Start the main loop with [wrap_counter <= 45],
    [unwrap_counter <= 45] and [total_tx <= 90].  Then every value the
    counters are ever assigned during the run, and the counters wherever
    the run stops or has got to, satisfy the same three bounds. *)
Theorem counters_within_quota cfg web3 fuel w r w' :
  within_quota (vars w) ->
  main_loop cfg web3 fuel w = (r, w') ->
  within_quota (vars w') /\
  forall p, In (EvStore p) (trace w') ->
            In (EvStore p) (trace w) \/ within_quota p.
Proof.
  intros Hb Hrun.
  pose (I := fun x : World =>
    within_quota (vars x) /\
    forall p, In (EvStore p) (trace x) ->
              In (EvStore p) (trace w) \/ within_quota p).
  assert (HI : I (snd (main_loop cfg web3 fuel w))).
  { apply main_loop_invariant; subst I; simpl.
    - intros x x' [Hx Hs] Hd. split.
      + destruct Hd as (Hv & _). now rewrite Hv.
      + intros p Hp. apply Hs. eapply drift_loud_event; eauto.
    - intros k x [Hx Hs] Hg. apply eligible_true in Hg.
      unfold within_quota in *.
      split; [destruct k; simpl; lia |].
      intros p [Hp | [Hp | [Hp | [Hp | Hp]]]]; try discriminate; auto;
        right; inversion Hp; subst; destruct k; simpl; lia.
    - intros x [Hx Hs]. rewrite cleared_vars. split; [exact Hx |].
      intros p Hp. apply cleared_event in Hp.
      destruct Hp as [Hp | [Hp | Hp]]; try discriminate; auto.
    - intros x [Hx Hs]. split; [exact Hx |].
      intros p [Hp | Hp]; [discriminate | auto].
    - split; [exact Hb | auto]. }
  rewrite Hrun in HI. exact HI.
Qed.

(** * Leaving the loop *)

Lemma branch_total cfg web3 k w r w1 :
  branch cfg web3 k w = (r, w1) ->
  total_tx (vars w) <= 90 ->
  total_tx (vars w1) <= 90 /\ (r = OutOfFuel -> total_tx (vars w1) < 90).
Proof.
  rewrite branch_run. intros Hrun Hle.
  destruct (eligible k (vars w)) eqn:Hg.
  - apply eligible_true in Hg. destruct Hg as [_ Hlt].
    pose proof (quiet_attempt cfg web3 k w) as (Hv & _).
    destruct (attempt cfg web3 k w) as [[[|] | e |] w0]; simpl in Hv;
      inversion Hrun; subst; clear Hrun.
    + split; [| discriminate]. destruct k; simpl; rewrite Hv; lia.
    + split; [| discriminate]. rewrite Hv; lia.
    + split; [| discriminate]. rewrite Hv; lia.
    + split; intros; rewrite Hv; lia.
  - inversion Hrun; subst. split; [lia | discriminate].
Qed.

Lemma main_loop_stops cfg web3 fuel : forall w r w',
  total_tx (vars w) < 90 ->
  main_loop cfg web3 fuel w = (r, w') ->
  (r = Ret tt -> total_tx (vars w') = 90 /\ file w' = None) /\
  (r = OutOfFuel -> total_tx (vars w') < 90).
Proof.
  induction fuel as [| fuel IH]; intros w r w' Hlt; rewrite main_loop_run;
    (destruct (total_tx (vars w) <? 90) eqn:Hg; [| lia]).
  - intros Hrun. inversion Hrun; subst. split; [discriminate | auto].
  - destruct (branch cfg web3 Wrap w) as [r1 w1] eqn:H1.
    apply branch_total in H1; [| lia]. destruct H1 as [Hle1 Hoof1].
    destruct r1 as [[] | e |].
    2:{ intros Hrun; inversion Hrun; subst. split; discriminate. }
    2:{ intros Hrun; inversion Hrun; subst. split; [discriminate | auto]. }
    destruct (branch cfg web3 Unwrap w1) as [r2 w2] eqn:H2.
    apply branch_total in H2; [| lia]. destruct H2 as [Hle2 Hoof2].
    destruct r2 as [[] | e |].
    2:{ intros Hrun; inversion Hrun; subst. split; discriminate. }
    2:{ intros Hrun; inversion Hrun; subst. split; [discriminate | auto]. }
    destruct (total_tx (vars w2) >=? 90) eqn:Hq.
    + intros Hrun; inversion Hrun; subst.
      rewrite cleared_vars, cleared_file. split; [| discriminate].
      intros _. split; [lia | reflexivity].
    + intros Hrun. apply (IH (slept 10 w2)); [simpl; lia | exact Hrun].
Qed.

(** C3, as the code has it.  Start the main loop with [total_tx < 90].
    If the loop is left normally, then [total_tx] is exactly 90 and the
    status file does not exist; and as long as the loop has not been left
    (it has used up any given number of iterations), [total_tx < 90].
    Nothing is said about a run that starts with [total_tx >= 90], where
    the body is never entered, or that dies of an uncaught exception. *)
Theorem loop_left_exactly_at_quota cfg web3 fuel w r w' :
  total_tx (vars w) < 90 ->
  main_loop cfg web3 fuel w = (r, w') ->
  (r = Ret tt -> total_tx (vars w') = 90 /\ file w' = None) /\
  (r = OutOfFuel -> total_tx (vars w') < 90).
Proof. apply main_loop_stops. Qed.

Lemma load_transaction_status_run w :
  load_transaction_status w =
  match file w with
  | None | Some NotJson => (Ret (mkProgress 0 0 0), w)
  | Some (Unreadable e) =>
      if missing_or_undecodable e then (Ret (mkProgress 0 0 0), w)
      else (Raise e, w)
  | Some JsonNotObject => (Raise TypeError, w)
  | Some (JsonObject d) =>
      match d !! "wrap_counter" with
      | None => (Raise (KeyError "wrap_counter"), w)
      | Some a =>
          match d !! "unwrap_counter" with
          | None => (Raise (KeyError "unwrap_counter"), w)
          | Some b =>
              match d !! "total_tx" with
              | None => (Raise (KeyError "total_tx"), w)
              | Some c => (Ret (mkProgress a b c), w)
              end
          end
      end
  end.
Proof.
  unfold load_transaction_status, try_except. rewrite bind_run.
  unfold open_and_load.
  destruct (file w) as [[| | d | e] |]; try reflexivity.
  simpl. rewrite bind_run. simpl.
  destruct (d !! "wrap_counter"); [| reflexivity].
  simpl. rewrite bind_run. simpl.
  destruct (d !! "unwrap_counter"); [| reflexivity].
  simpl. rewrite bind_run. simpl.
  destruct (d !! "total_tx"); reflexivity.
Qed.

Lemma load_transaction_status_world w r w1 :
  load_transaction_status w = (r, w1) -> w1 = w.
Proof.
  rewrite load_transaction_status_run.
  destruct (file w) as [[| | d | e] |]; try (intros H; now inversion H).
  2:{ destruct (missing_or_undecodable e); intros H; now inversion H. }
  destruct (d !! "wrap_counter"); [| intros H; now inversion H].
  destruct (d !! "unwrap_counter"); [| intros H; now inversion H].
  destruct (d !! "total_tx"); intros H; now inversion H.
Qed.

(** C10.  If the state loaded at start has [total_tx >= 90], the script
    ends at once: the only thing that happens is the assignment of the
    loaded values to the counters.  No remote call is made, nothing is
    printed, the counters keep their loaded values, and the status file,
    which exists, is left as it is. *)
Theorem quota_already_met_leaves_file cfg web3 fuel w p w1 :
  load_transaction_status w = (Ret p, w1) ->
  90 <= total_tx p ->
  bot cfg web3 fuel w =
    (Ret tt, mkWorld p (file w) (now w) (calls w) (EvStore p :: trace w))
  /\ file w <> None.
Proof.
  intros Hload Hq.
  pose proof (load_transaction_status_world _ _ _ Hload) as ->.
  split.
  - unfold bot. rewrite bind_run, Hload. simpl. rewrite bind_run. simpl.
    rewrite main_loop_run. simpl.
    destruct (total_tx p <? 90) eqn:Hg; [lia | reflexivity].
  - rewrite load_transaction_status_run in Hload.
    destruct (file w) as [c |]; [discriminate |].
    inversion Hload; subst. simpl in Hq. lia.
Qed.

(** ** The status file at start *)

(** C9, as the code has it.  When the status file is absent, or holds
    text that [json.load] rejects with [JSONDecodeError], loading returns
    the zero state and raises nothing; the world is untouched.  When
    opening, reading or parsing the file raises anything else (for
    instance [UnicodeDecodeError] on bytes that are not text), that
    exception is not caught: loading raises it. *)
Theorem load_defaults_to_zero w :
  (file w = None \/ file w = Some NotJson ->
   load_transaction_status w = (Ret (mkProgress 0 0 0), w)) /\
  (forall e, file w = Some (Unreadable e) ->
     e <> FileNotFoundError -> e <> JSONDecodeError ->
     load_transaction_status w = (Raise e, w)).
Proof.
  split.
  - intros [Hf | Hf]; rewrite load_transaction_status_run, Hf; reflexivity.
  - intros e Hf H1 H2. rewrite load_transaction_status_run, Hf.
    destruct e; try reflexivity; congruence.
Qed.

(** What the [except] clause does not cover: JSON that parses but is not a
    record with the three members. *)
Lemma load_raises_on_parseable_non_record w :
  is_status_record (file w) = false ->
  file w <> None -> file w <> Some NotJson ->
  (forall e, file w <> Some (Unreadable e)) ->
  exists e, load_transaction_status w = (Raise e, w) /\
            missing_or_undecodable e = false.
Proof.
  intros Hrec Hn Hj Hu. rewrite load_transaction_status_run.
  destruct (file w) as [[| | d | e] |]; try congruence.
  - exists TypeError. split; reflexivity.
  - simpl in Hrec.
    destruct (d !! "wrap_counter"); [| eexists; split; reflexivity].
    destruct (d !! "unwrap_counter"); [| eexists; split; reflexivity].
    destruct (d !! "total_tx"); [discriminate | eexists; split; reflexivity].
Qed.

(** * The confirmation watcher *)

Section Watcher.

Variable web3 : Web3.
Variable tx_hash : TxHash.
Variables timeout start_time : Z.

Lemma poll_once_run w :
  poll_once web3 tx_hash w =
  (Ret (verdict (get_transaction_receipt web3 (calls w) tx_hash)),
   polled web3 tx_hash w).
Proof.
  unfold poll_once, try_except, polled. rewrite bind_run.
  unfold get_receipt, remote, verdict.
  destruct (get_transaction_receipt web3 (calls w) tx_hash) as [[rc |] | e];
    simpl; try reflexivity.
  destruct (status rc =? 1); [reflexivity |].
  destruct (status rc =? 0); reflexivity.
Qed.

Lemma wait_loop_run fuel w :
  wait_loop web3 fuel tx_hash timeout start_time w =
  if now w - start_time <? timeout then
    match fuel with
    | O => (OutOfFuel, w)
    | S fuel' =>
        match verdict (get_transaction_receipt web3 (calls w) tx_hash) with
        | Some b => (Ret b, polled web3 tx_hash w)
        | None =>
            wait_loop web3 fuel' tx_hash timeout start_time
                      (slept 30 (polled web3 tx_hash w))
        end
    end
  else (Ret false,
        mkWorld (vars w) (file w) (now w) (calls w)
                (EvPrint (MsgTimeout tx_hash) :: trace w)).
Proof.
  destruct fuel as [| fuel']; simpl wait_loop; rewrite bind_run; simpl;
    destruct (now w - start_time <? timeout); try reflexivity.
  rewrite bind_run, poll_once_run.
  destruct (verdict _); reflexivity.
Qed.

Lemma polled_head w b :
  verdict (get_transaction_receipt web3 (calls w) tx_hash) = Some b ->
  head (trace (polled web3 tx_hash w)) =
  Some (EvPrint (if b then MsgConfirmed tx_hash else MsgReverted tx_hash)).
Proof. unfold polled. intros ->. destruct b; reflexivity. Qed.

(** With a pass in hand for every 30 units of the window that are left,
    the loop ends with one of the three reports. *)
Lemma wait_loop_reports fuel : forall w,
  timeout <= now w - start_time + 30 * Z.of_nat fuel ->
  exists o, reported o tx_hash
              (wait_loop web3 fuel tx_hash timeout start_time w).
Proof.
  induction fuel as [| fuel IH]; intros w Hfuel; rewrite wait_loop_run;
    destruct (now w - start_time <? timeout) eqn:Hwin;
    try (exists TimedOut; split; reflexivity).
  - lia.
  - destruct (verdict _) as [b |] eqn:Hv.
    + pose proof (polled_head w b Hv) as Hh.
      destruct b; [exists Confirmed | exists Reverted]; split; auto.
    + apply IH. simpl. lia.
Qed.

Lemma pending_S c t n :
  pending web3 tx_hash timeout start_time c t (S n) ->
  t - start_time < timeout /\
  verdict (get_transaction_receipt web3 c tx_hash) = None /\
  pending web3 tx_hash timeout start_time
    (S c) (t + Z.of_N (latency web3 c) + 30) n.
Proof.
  intros Hp. destruct (Hp O ltac:(lia)) as [H0 H1].
  rewrite Nat.add_0_r in H1. simpl in H0. repeat split; try assumption.
  - destruct (Hp (S k) ltac:(lia)) as [Hk _]. exact Hk.
  - destruct (Hp (S k) ltac:(lia)) as [_ Hk].
    now rewrite Nat.add_succ_r in Hk.
Qed.

Lemma wait_loop_outcome n : forall fuel w,
  timeout <= now w - start_time + 30 * Z.of_nat fuel ->
  pending web3 tx_hash timeout start_time (calls w) (now w) n ->
  let t := poll_time web3 (calls w) (now w) n in
  let r := get_transaction_receipt web3 (calls w + n) tx_hash in
  let out := wait_loop web3 fuel tx_hash timeout start_time w in
  (t - start_time < timeout -> verdict r = Some true ->
   reported Confirmed tx_hash out) /\
  (t - start_time < timeout -> verdict r = Some false ->
   reported Reverted tx_hash out) /\
  (timeout <= t - start_time -> reported TimedOut tx_hash out).
Proof.
  induction n as [| n IH]; intros fuel w Hfuel Hp; simpl poll_time.
  - rewrite Nat.add_0_r. cbv zeta. rewrite wait_loop_run.
    destruct (now w - start_time <? timeout) eqn:Hwin.
    + destruct fuel as [| fuel']; [lia |].
      split; [| split]; [| | lia]; intros _ Hv; rewrite Hv;
        (split; [reflexivity | apply (polled_head w _ Hv)]).
    + split; [| split]; try lia. intros _. split; reflexivity.
  - apply pending_S in Hp. destruct Hp as (Hwin & Hv & Hp).
    cbv zeta. rewrite wait_loop_run.
    destruct (now w - start_time <? timeout) eqn:Hw; [| lia].
    destruct fuel as [| fuel']; [lia |].
    rewrite Hv.
    specialize (IH fuel' (slept 30 (polled web3 tx_hash w))).
    simpl in IH. rewrite Nat.add_succ_r. apply IH; [lia | exact Hp].
Qed.

End Watcher.

Lemma max_polls_enough timeout :
  timeout <= 30 * Z.of_nat (max_polls timeout).
Proof.
  unfold max_polls. rewrite Nat2Z.inj_succ.
  pose proof (Z.div_mod timeout 30 ltac:(lia)) as Hdm.
  pose proof (Z.mod_pos_bound timeout 30 ltac:(lia)) as Hm.
  lia.
Qed.

Lemma wait_for_confirmation_run web3 tx_hash timeout w :
  wait_for_confirmation web3 tx_hash timeout w =
  wait_loop web3 (max_polls timeout) tx_hash timeout (now w) w.
Proof. reflexivity. Qed.

(** A call of the watcher returns, and with exactly one report. *)
Lemma wait_for_confirmation_returns web3 tx_hash timeout w :
  exists o, reported o tx_hash (wait_for_confirmation web3 tx_hash timeout w).
Proof.
  rewrite wait_for_confirmation_run. apply wait_loop_reports.
  pose proof (max_polls_enough timeout). lia.
Qed.

Lemma reported_unique o1 o2 tx_hash out :
  reported o1 tx_hash out -> reported o2 tx_hash out -> o1 = o2.
Proof.
  destruct o1, o2; simpl; intros [H1 H2] [H3 H4];
    try reflexivity; congruence.
Qed.

(** C5.  Let the watcher be called with the clock at [now w].  The window
    is [now w, now w + timeout), and it is tested before each poll.

    - The call returns, with one of three reports: Confirmed ([True] and
      the line "Confirmed"), Reverted ([False] and the line "Failed"),
      TimedOut ([False] and the line "Timeout"); no two of them hold of
      the same call.
    - If the first [n] polls start inside the window and are not decisive,
      then: a receipt with status 1 at the next poll, started inside the
      window, gives Confirmed; a receipt with status 0 there gives
      Reverted; and if the window is over when that poll would start, the
      report is TimedOut.
    - A query that raises is not decisive, and the times at which the
      window is tested depend on the latencies only: the window is still
      measured from [now w] after any number of failed queries. *)
Theorem watcher_reports web3 tx_hash timeout w :
  let out := wait_for_confirmation web3 tx_hash timeout w in
  (exists o, reported o tx_hash out) /\
  (forall o1 o2,
     reported o1 tx_hash out -> reported o2 tx_hash out -> o1 = o2) /\
  (forall n,
     pending web3 tx_hash timeout (now w) (calls w) (now w) n ->
     let t := poll_time web3 (calls w) (now w) n in
     let r := get_transaction_receipt web3 (calls w + n) tx_hash in
     (t - now w < timeout -> verdict r = Some true ->
      reported Confirmed tx_hash out) /\
     (t - now w < timeout -> verdict r = Some false ->
      reported Reverted tx_hash out) /\
     (timeout <= t - now w -> reported TimedOut tx_hash out)) /\
  (forall e, verdict (Err e) = None) /\
  (forall rc, verdict (Ok (Some rc)) = Some true <-> status rc = 1) /\
  (forall rc, verdict (Ok (Some rc)) = Some false <-> status rc = 0).
Proof.
  cbv zeta. split; [apply wait_for_confirmation_returns |].
  split; [intros o1 o2; apply reported_unique |].
  split.
  - intros n Hp. rewrite wait_for_confirmation_run.
    apply wait_loop_outcome; [| exact Hp].
    pose proof (max_polls_enough timeout). lia.
  - split; [reflexivity |]. split; intros rc; simpl.
    + destruct (status rc =? 1) eqn:H1; [split; [lia | reflexivity] |].
      destruct (status rc =? 0); split; (discriminate || lia).
    + destruct (status rc =? 1) eqn:H1; [split; [discriminate | lia] |].
      destruct (status rc =? 0) eqn:H0; split;
        (discriminate || lia || reflexivity).
Qed.

(** * The balance gate *)

Lemma has_sufficient_balance_run cfg web3 amount (is_wrap : bool) (w : World) :
  let c := calls w in
  let estimate :=
    estimate_gas web3 c
      (if is_wrap then deposit_call cfg amount
       else withdraw_call cfg amount) in
  let balance :=
    if is_wrap then get_balance web3 (S c) (my_address cfg)
    else balanceOf web3 (S c) (my_address cfg) in
  exists b w',
    has_sufficient_balance cfg web3 amount is_wrap w = (Ret b, w') /\
    (b = true <->
     exists g bal,
       estimate = Ok g /\ balance = Ok bal /\
       if is_wrap then max_priority_fee_per_gas * g <= bal
       else amount <= bal) /\
    ((exists e, estimate = Err e) -> b = false).
Proof.
  cbv zeta.
  unfold has_sufficient_balance, try_except, do_estimate_gas,
    check_eth_balance, check_weth_balance.
  destruct is_wrap; rewrite bind_run; unfold remote at 1;
    (match goal with
     | |- context [estimate_gas web3 (calls w) ?c] =>
         destruct (estimate_gas web3 (calls w) c) as [g | e] eqn:He
     end; simpl;
     [ rewrite bind_run; unfold remote; simpl;
       match goal with
       | |- context [lift ?r] => destruct r as [bal | e'] eqn:Hb
       end; simpl
     | ]);
    do 2 eexists; (split; [reflexivity |]); split;
    try (intros [e0 He0]; congruence);
    try (split; [discriminate | intros (g0 & bal0 & H1 & H2 & _); congruence]).
  - split.
    + intros Hge. exists g, bal. repeat split. lia.
    + intros (g0 & bal0 & H1 & H2 & H3). inversion H1; inversion H2; subst. lia.
  - split.
    + intros Hge. exists g, bal. repeat split. lia.
    + intros (g0 & bal0 & H1 & H2 & H3). inversion H1; inversion H2; subst. lia.
Qed.

(** C7.  [has_sufficient_balance] always returns a boolean and raises
    nothing.  For a wrap it returns [True] exactly when the gas estimate
    [g] of the deposit call and the native balance [bal] are obtained and
    [bal >= max_priority_fee_per_gas * g] (the fee alone: the amount is not
    part of the comparison).  For an unwrap it returns [True] exactly when
    the gas estimate of the withdraw call and the token balance [bal] are
    obtained and [bal >= amount].  For either kind it returns [False] when
    the gas estimation raises. *)
Theorem balance_gate cfg web3 amount (is_wrap : bool) (w : World) :
  let c := calls w in
  let estimate :=
    estimate_gas web3 c
      (if is_wrap then deposit_call cfg amount
       else withdraw_call cfg amount) in
  let balance :=
    if is_wrap then get_balance web3 (S c) (my_address cfg)
    else balanceOf web3 (S c) (my_address cfg) in
  exists b w',
    has_sufficient_balance cfg web3 amount is_wrap w = (Ret b, w') /\
    (b = true <->
     exists g bal,
       estimate = Ok g /\ balance = Ok bal /\
       if is_wrap then max_priority_fee_per_gas * g <= bal
       else amount <= bal) /\
    ((exists e, estimate = Err e) -> b = false).
Proof. apply has_sufficient_balance_run. Qed.

(** * The payloads *)

Lemma Z_of_byte_of_Z z : Z_of_byte (byte_of_Z z) = z mod 256.
Proof.
  unfold Z_of_byte, byte_of_Z.
  pose proof (Z.mod_pos_bound z 256 ltac:(lia)) as Hm.
  destruct (Byte.of_N (Z.to_N (z mod 256))) as [b |] eqn:Hb.
  - apply Byte.to_of_N in Hb. rewrite Hb. lia.
  - apply Byte.of_N_None_iff in Hb. lia.
Qed.

Lemma length_little_endian len : forall n, length (little_endian len n) = len.
Proof. induction len as [| len IH]; intros n; simpl; [| rewrite IH]; easy. Qed.

Lemma from_bytes_snoc bs b :
  from_bytes (bs ++ [b]) = from_bytes bs * 256 + Z_of_byte b.
Proof. unfold from_bytes. now rewrite fold_left_app. Qed.

Lemma from_bytes_little_endian len : forall n,
  0 <= n -> from_bytes (rev (little_endian len n)) = n mod 256 ^ Z.of_nat len.
Proof.
  induction len as [| len IH]; intros n Hn.
  - simpl. now rewrite Z.mod_1_r.
  - cbn [little_endian rev]. rewrite from_bytes_snoc, Z_of_byte_of_Z.
    rewrite IH by (apply Z.div_pos; lia).
    rewrite Nat2Z.inj_succ, Z.pow_succ_r by lia.
    rewrite Z.rem_mul_r by lia. lia.
Qed.

(** [to_bytes] yields exactly [len] bytes that read back, big end first, as
    the number. *)
Lemma to_bytes_ok n len bs :
  to_bytes n len = Ok bs -> length bs = len /\ from_bytes bs = n.
Proof.
  unfold to_bytes.
  destruct ((n <? 0) || (256 ^ Z.of_nat len <=? n)) eqn:Hr; [discriminate |].
  intros H; inversion H; subst. apply orb_false_iff in Hr. split.
  - now rewrite length_rev, length_little_endian.
  - rewrite from_bytes_little_endian by lia. apply Z.mod_small. lia.
Qed.

Lemma hex_app a b : hex (a ++ b) = hex a +:+ hex b.
Proof. induction a as [| x a IH]; simpl; [| rewrite IH]; reflexivity. Qed.

Lemma the_only_sign after before tx r e1 e2 tx' r' :
  forallb side_event after = true -> forallb side_event before = true ->
  (forall t s, e1 <> EvSign t s) -> (forall t s, e2 <> EvSign t s) ->
  In (EvSign tx' r') (after ++ EvSign tx r :: e1 :: e2 :: before) ->
  tx' = tx /\ r' = r.
Proof.
  intros Ha Hb H1 H2 Hin. rewrite forallb_forall in Ha, Hb.
  apply in_app_or in Hin.
  destruct Hin as [Hin | [Hin | [Hin | [Hin | Hin]]]].
  - apply Ha in Hin. discriminate.
  - inversion Hin. auto.
  - now apply H1 in Hin.
  - now apply H2 in Hin.
  - apply Hb in Hin. discriminate.
Qed.

Lemma no_sign_in_side evs tx r :
  forallb side_event evs = true -> ~ In (EvSign tx r) evs.
Proof.
  intros Hs Hin. rewrite forallb_forall in Hs. apply Hs in Hin. discriminate.
Qed.

Section Submit.

Variable cfg : Config.
Variable web3 : Web3.

(** Sending and watching, with the handler around them. *)
Lemma side_send_and_wait raw sent failed :
  quiet_by side_event
    (try_except
       (tx_hash ← do_send web3 raw;
        print (sent tx_hash);;
        wait_for_confirmation web3 tx_hash 300)
       any_Exception
       (fun e => print (failed e);; mret false)).
Proof.
  pose proof (side_wait_for_confirmation web3).
  unfold do_send. quiet_auto; auto.
Qed.

(** What a call has appended to the trace once it has signed [tx]. *)
Lemma signed_then_sent (w1 w : World) evs1 nonce gas c tx
    (k : bytes -> M bool) :
  trace w1 = evs1 ++ trace w ->
  forallb side_event evs1 = true ->
  (forall raw, quiet_by side_event (k raw)) ->
  let r := sign_transaction web3 tx (private_key cfg) in
  let w4 := mkWorld (vars w1) (file w1)
              (now w1 + Z.of_N (latency web3 (calls w1))
                 + Z.of_N (latency web3 (S (calls w1))))
              (S (S (calls w1)))
              (EvSign tx r :: EvEstimateGas c (Ok gas)
                 :: EvGetTransactionCount (my_address cfg) (Ok nonce)
                 :: trace w1) in
  tx_nonce tx = nonce ->
  exists evs,
    trace (snd (match r with Ok raw => k raw | Err e => raise e end w4))
      = evs ++ trace w /\
    forall tx' s', In (EvSign tx' s') evs ->
      tx' = tx /\ built_on_fresh_nonce cfg evs tx' s'.
Proof.
  intros Ht Hs Hk r w4 Hn.
  assert (Hq : quiet_by side_event
                 (match r with Ok raw => k raw | Err e => raise e end)).
  { destruct r; [apply Hk | apply quiet_by_raise]. }
  destruct (Hq w4) as (_ & _ & _ & evs5 & Ht5 & Hs5).
  exists (evs5 ++ EvSign tx r :: EvEstimateGas c (Ok gas)
            :: EvGetTransactionCount (my_address cfg) (Ok nonce) :: evs1).
  split.
  - rewrite Ht5. subst w4. simpl. rewrite Ht.
    rewrite <- app_assoc. reflexivity.
  - intros tx' s' Hin.
    apply the_only_sign in Hin; try assumption; try discriminate.
    destruct Hin as [-> ->]. split; [reflexivity |].
    exists evs5, evs1, c, gas. now rewrite Hn.
Qed.

End Submit.

Lemma do_sign_bind cfg web3 tx {B} (k : bytes -> M B) w :
  (do_sign cfg web3 tx ≫= k) w =
  (match sign_transaction web3 tx (private_key cfg) with
   | Ok raw => k raw
   | Err e => raise e
   end)
    (mkWorld (vars w) (file w) (now w) (calls w)
       (EvSign tx (sign_transaction web3 tx (private_key cfg)) :: trace w)).
Proof.
  rewrite bind_run. unfold do_sign.
  destruct (sign_transaction web3 tx (private_key cfg)); reflexivity.
Qed.

(** Closes the cases in which the call stops before it signs anything. *)
Ltac nothing_signed evs :=
  exists evs; split;
  [ simpl;
    repeat match goal with H : trace _ = _ ++ _ |- _ => rewrite H end;
    reflexivity
  | intros ? ? Hin; exfalso; simpl in Hin;
    repeat (destruct Hin as [Hin | Hin]; [discriminate |]);
    eapply no_sign_in_side; eauto ].

Lemma wrap_signing cfg web3 amount w :
  exists evs,
    trace (snd (wrap_eth_to_weth cfg web3 amount w)) = evs ++ trace w /\
    forall tx s, In (EvSign tx s) evs ->
      (exists gas, tx = wrap_transaction cfg (tx_nonce tx) gas amount) /\
      built_on_fresh_nonce cfg evs tx s.
Proof.
  unfold wrap_eth_to_weth. rewrite bind_run.
  destruct (side_has_sufficient_balance cfg web3 amount true w)
    as (_ & _ & _ & evs1 & Ht1 & Hs1).
  destruct (has_sufficient_balance cfg web3 amount true w)
    as [[[|] | e |] w1]; simpl in Ht1; cbn [negb].
  - rewrite bind_run. unfold get_next_nonce, remote at 1.
    destruct (get_transaction_count web3 (calls w1) (my_address cfg))
      as [nonce | e] eqn:Hn; simpl lift.
    2:{ nothing_signed
          (EvGetTransactionCount (my_address cfg) (@Err Z e) :: evs1). }
    rewrite ret_run, bind_run. unfold do_estimate_gas, remote at 1.
    cbn [calls vars file now trace].
    destruct (estimate_gas web3 (S (calls w1)) (deposit_call cfg amount))
      as [gas | e] eqn:Hg; simpl lift.
    2:{ nothing_signed
          (EvEstimateGas (deposit_call cfg amount) (@Err Z e)
             :: EvGetTransactionCount (my_address cfg) (Ok nonce) :: evs1). }
    rewrite ret_run, do_sign_bind. cbn [calls vars file now trace].
    destruct (signed_then_sent cfg web3 w1 w evs1 nonce gas
                (deposit_call cfg amount)
                (wrap_transaction cfg nonce gas amount)
                (fun raw =>
                   try_except
                     (tx_hash ← do_send web3 raw;
                      print (MsgWrapSent tx_hash);;
                      wait_for_confirmation web3 tx_hash 300)
                     any_Exception
                     (fun e => print (MsgErrorSendingWrap e);; mret false))
                Ht1 Hs1
                (fun raw => side_send_and_wait web3 raw _ _) eq_refl)
      as (evs & Ht & Hsign).
    exists evs. split; [exact Ht |].
    intros tx s Hin. destruct (Hsign tx s Hin) as [-> Hb].
    split; [exists gas; reflexivity | exact Hb].
  - rewrite bind_run. nothing_signed (EvPrint MsgInsufficientEth :: evs1).
  - nothing_signed evs1.
  - nothing_signed evs1.
Qed.

Lemma unwrap_signing cfg web3 amount w :
  exists evs,
    trace (snd (unwrap_weth_to_eth cfg web3 amount w)) = evs ++ trace w /\
    forall tx s, In (EvSign tx s) evs ->
      (exists gas arg,
         to_bytes amount 32 = Ok arg /\
         tx = unwrap_transaction cfg (tx_nonce tx) gas arg) /\
      built_on_fresh_nonce cfg evs tx s.
Proof.
  unfold unwrap_weth_to_eth. rewrite bind_run.
  destruct (side_has_sufficient_balance cfg web3 amount false w)
    as (_ & _ & _ & evs1 & Ht1 & Hs1).
  destruct (has_sufficient_balance cfg web3 amount false w)
    as [[[|] | e |] w1]; simpl in Ht1; cbn [negb].
  - rewrite bind_run. unfold get_next_nonce, remote at 1.
    destruct (get_transaction_count web3 (calls w1) (my_address cfg))
      as [nonce | e] eqn:Hn; simpl lift.
    2:{ nothing_signed
          (EvGetTransactionCount (my_address cfg) (@Err Z e) :: evs1). }
    rewrite ret_run, bind_run. unfold do_estimate_gas, remote at 1.
    cbn [calls vars file now trace].
    destruct (estimate_gas web3 (S (calls w1)) (withdraw_call cfg amount))
      as [gas | e] eqn:Hg; simpl lift.
    2:{ nothing_signed
          (EvEstimateGas (withdraw_call cfg amount) (@Err Z e)
             :: EvGetTransactionCount (my_address cfg) (Ok nonce) :: evs1). }
    rewrite ret_run, bind_run.
    destruct (to_bytes amount 32) as [arg | e] eqn:Hb; simpl lift.
    2:{ nothing_signed
          (EvEstimateGas (withdraw_call cfg amount) (Ok gas)
             :: EvGetTransactionCount (my_address cfg) (Ok nonce) :: evs1). }
    rewrite ret_run, do_sign_bind. cbn [calls vars file now trace].
    destruct (signed_then_sent cfg web3 w1 w evs1 nonce gas
                (withdraw_call cfg amount)
                (unwrap_transaction cfg nonce gas arg)
                (fun raw =>
                   try_except
                     (tx_hash ← do_send web3 raw;
                      print (MsgUnwrapSent tx_hash);;
                      wait_for_confirmation web3 tx_hash 300)
                     any_Exception
                     (fun e => print (MsgErrorSendingUnwrap e);; mret false))
                Ht1 Hs1
                (fun raw => side_send_and_wait web3 raw _ _) eq_refl)
      as (evs & Ht & Hsign).
    exists evs. split; [exact Ht |].
    intros tx s Hin. destruct (Hsign tx s Hin) as [-> Hbuilt].
    split; [exists gas, arg; split; reflexivity | exact Hbuilt].
  - rewrite bind_run. nothing_signed (EvPrint MsgInsufficientWeth :: evs1).
  - nothing_signed evs1.
  - nothing_signed evs1.
Qed.


(** * How an attempt ends *)

Lemma send_and_wait_ends web3 raw sent failed w :
  (forall e, exists f, failure_of (failed e) = Some f) ->
  ends_well
    (try_except
       (tx_hash ← do_send web3 raw;
        print (sent tx_hash);;
        wait_for_confirmation web3 tx_hash 300)
       any_Exception
       (fun e => print (failed e);; mret false) w).
Proof.
  intros Hfailed. unfold try_except. rewrite bind_run.
  unfold do_send, remote at 1.
  destruct (send_raw_transaction web3 (calls w) raw) as [h | e]; simpl lift.
  - rewrite ret_run, bind_run. unfold print, log. cbv iota beta.
    match goal with
    | |- context [wait_for_confirmation web3 h 300 ?w'] =>
        destruct (wait_for_confirmation_returns web3 h 300 w') as [o Ho];
        destruct (wait_for_confirmation web3 h 300 w') as [r w2]
    end.
    unfold ends_well.
    destruct o; simpl in Ho; destruct Ho as [-> Hh]; simpl.
    + now exists h.
    + now exists (MsgReverted h), RevertedOnChain.
    + now exists (MsgTimeout h), NoConfirmation.
  - unfold raise. simpl. unfold ends_well. simpl.
    destruct (Hfailed e) as [f Hf]. now exists (failed e), f.
Qed.

Lemma gate_returns cfg web3 amount is_wrap w :
  exists b w', has_sufficient_balance cfg web3 amount is_wrap w = (Ret b, w').
Proof.
  destruct (has_sufficient_balance_run cfg web3 amount is_wrap w)
    as (b & w' & H & _).
  now exists b, w'.
Qed.

Ltac raised_after_call :=
  unfold ends_well; simpl; eexists; split; [reflexivity | discriminate].

Lemma wrap_ends_well cfg web3 amount w :
  ends_well (wrap_eth_to_weth cfg web3 amount w).
Proof.
  unfold wrap_eth_to_weth. rewrite bind_run.
  destruct (gate_returns cfg web3 amount true w) as (b & w1 & ->).
  destruct b; cbn [negb].
  - rewrite bind_run. unfold get_next_nonce, remote at 1.
    destruct (get_transaction_count web3 (calls w1) (my_address cfg));
      simpl lift; [| raised_after_call].
    rewrite ret_run, bind_run. unfold do_estimate_gas, remote at 1.
    match goal with
    | |- context [lift ?r] => destruct r; simpl lift; [| raised_after_call]
    end.
    rewrite ret_run, do_sign_bind.
    match goal with
    | |- context [sign_transaction web3 ?t ?k] =>
        destruct (sign_transaction web3 t k); [| raised_after_call]
    end.
    apply send_and_wait_ends. intros e. now eexists.
  - rewrite bind_run. unfold ends_well. simpl.
    now exists MsgInsufficientEth, InsufficientBalance.
Qed.

Lemma unwrap_ends_well cfg web3 amount w :
  0 <= amount < 2 ^ 256 ->
  ends_well (unwrap_weth_to_eth cfg web3 amount w).
Proof.
  intros Hrange.
  unfold unwrap_weth_to_eth. rewrite bind_run.
  destruct (gate_returns cfg web3 amount false w) as (b & w1 & ->).
  destruct b; cbn [negb].
  - rewrite bind_run. unfold get_next_nonce, remote at 1.
    destruct (get_transaction_count web3 (calls w1) (my_address cfg));
      simpl lift; [| raised_after_call].
    rewrite ret_run, bind_run. unfold do_estimate_gas, remote at 1.
    match goal with
    | |- context [lift ?r] => destruct r; simpl lift; [| raised_after_call]
    end.
    rewrite ret_run, bind_run.
    unfold to_bytes.
    replace ((amount <? 0) || (256 ^ Z.of_nat 32 <=? amount)) with false
      by (symmetry; apply orb_false_iff;
          change (256 ^ Z.of_nat 32) with (2 ^ 256); lia).
    simpl lift. rewrite ret_run, do_sign_bind.
    match goal with
    | |- context [sign_transaction web3 ?t ?k] =>
        destruct (sign_transaction web3 t k); [| raised_after_call]
    end.
    apply send_and_wait_ends. intros e. now eexists.
  - rewrite bind_run. unfold ends_well. simpl.
    now exists MsgInsufficientWeth, InsufficientBalance.
Qed.

Lemma attempt_ends_well cfg web3 k w : ends_well (attempt cfg web3 k w).
Proof.
  destruct k; [apply wrap_ends_well | apply unwrap_ends_well].
  unfold amount_in_wei. lia.
Qed.

(** * Failed attempts *)

Lemma branch_vars cfg web3 k w r w2 :
  branch cfg web3 k w = (r, w2) ->
  vars w2 = vars w \/
  (eligible k (vars w) = true /\
   vars w2 = bump_total (bump_own k (vars w))).
Proof.
  rewrite branch_run.
  destruct (eligible k (vars w)) eqn:Hg;
    [| intros H; inversion H; auto].
  pose proof (quiet_attempt cfg web3 k w) as (Hv & _).
  destruct (attempt cfg web3 k w) as [[[|] | e |] w1]; simpl in Hv;
    intros H; inversion H; subst; auto.
  right. split; [reflexivity |]. simpl. now rewrite Hv.
Qed.

(** C4, as the code has it.  Take an iteration of the main loop, entered
    in [w0], and the world [wk] in which it tests the guard of an
    operation.  Let the guard hold and let the attempt end with one of
    the four failure lines: insufficient balance, error sending, reverted,
    or timeout.  Then the attempt returned [False]; the branch does nothing
    more than the attempt; the counters and the status file are what they
    were before it, and nothing but remote calls, prints and sleeps was
    logged (no assignment, no save, no removal); the guard of the
    operation still holds.  If moreover the counters satisfy
    [total_tx = wrap_counter + unwrap_counter] and the branches of this
    iteration return (in [w2]), the main loop goes on to its next
    iteration, which is entered, and in which the guard of the same
    operation holds when it is tested. *)
Theorem failed_attempt_is_retried cfg web3 k fuel w0 wk r w1 w2 m f :
  total_tx (vars w0) < 90 ->
  at_guard cfg web3 k w0 wk ->
  eligible k (vars wk) = true ->
  attempt cfg web3 k wk = (r, w1) ->
  head (trace w1) = Some (EvPrint m) ->
  failure_of m = Some f ->
  r = Ret false /\
  branch cfg web3 k wk = (Ret tt, w1) /\
  drift wk w1 /\
  eligible k (vars w1) = true /\
  (consistent (vars wk) -> branches_over cfg web3 k w1 w2 ->
   main_loop cfg web3 (S fuel) w0 = main_loop cfg web3 fuel (slept 10 w2) /\
   total_tx (vars (slept 10 w2)) < 90 /\
   forall wk', at_guard cfg web3 k (slept 10 w2) wk' ->
               eligible k (vars wk') = true).
Proof.
  intros Hlt Hat Hg Hrun Hhead Hfail.
  pose proof (attempt_ends_well cfg web3 k wk) as Hend.
  pose proof (quiet_attempt cfg web3 k wk) as Hd.
  rewrite Hrun in Hend, Hd. unfold ends_well in Hend. simpl in Hend, Hd.
  assert (Hr : r = Ret false).
  { destruct r as [[|] | e |].
    - destruct Hend as [h Hh]. rewrite Hhead in Hh. inversion Hh; subst.
      discriminate.
    - reflexivity.
    - destruct Hend as (ev & Hev & Hne). rewrite Hhead in Hev.
      inversion Hev; subst. now destruct (Hne m).
    - contradiction. }
  subst r. split; [reflexivity |].
  assert (Hv : vars w1 = vars wk) by (destruct Hd as (Hv & _); exact Hv).
  assert (Hbranch : branch cfg web3 k wk = (Ret tt, w1))
    by (rewrite branch_run, Hg, Hrun; reflexivity).
  split; [exact Hbranch |].
  split; [exact Hd |].
  split; [rewrite Hv; exact Hg |].
  intros Hc Hover. unfold consistent in Hc.
  apply eligible_true in Hg.
  rewrite main_loop_run.
  destruct (total_tx (vars w0) <? 90) eqn:Hguard; [| lia].
  destruct k; unfold at_guard, branches_over in *.
  - subst wk. rewrite Hbranch, Hover.
    apply branch_vars in Hover.
    assert (Hw2 : total_tx (vars w2) < 90 /\ wrap_counter (vars w2) < 45).
    { destruct Hover as [Hb | [Hg2 Hb]]; rewrite Hb, ?Hv.
      - simpl in Hg. lia.
      - apply eligible_true in Hg2. rewrite Hv in Hg2.
        simpl in Hg, Hg2 |- *. lia. }
    destruct (total_tx (vars w2) >=? 90) eqn:Hq; [lia |].
    split; [reflexivity |]. split; [simpl; lia |].
    intros wk' ->. simpl. apply andb_true_iff. lia.
  - subst w2. rewrite Hat, Hbranch.
    destruct (total_tx (vars w1) >=? 90) eqn:Hq; [rewrite Hv in Hq; lia |].
    split; [reflexivity |]. split; [simpl; rewrite Hv; lia |].
    intros wk' Hb. apply branch_vars in Hb.
    change (vars (slept 10 w1)) with (vars w1) in Hb. rewrite Hv in Hb.
    destruct Hb as [Hb | [Hg2 Hb]]; simpl; rewrite Hb.
    + simpl in Hg. apply andb_true_iff. lia.
    + apply eligible_true in Hg2. simpl in Hg, Hg2 |- *.
      apply andb_true_iff. lia.
Qed.

(** * The script on sample environments *)

(** C6: the code at the failing inputs.  With the gate passed, a failure of
    the gas estimate made after it, or of the signing, is not turned into
    [False]: the exception leaves [wrap_eth_to_weth] and
    [unwrap_weth_to_eth], and with them the whole script, before anything
    is counted or saved. *)
Theorem estimate_or_signing_failure_aborts :
  fst (wrap_eth_to_weth sample_cfg flaky_estimate_web3 amount_in_wei
         fresh_world) = Raise (Web3Exception 503) /\
  fst (bot sample_cfg flaky_estimate_web3 1 fresh_world)
    = Raise (Web3Exception 503) /\
  fst (wrap_eth_to_weth sample_cfg unsigning_web3 amount_in_wei fresh_world)
    = Raise TypeError /\
  fst (unwrap_weth_to_eth sample_cfg unsigning_web3 amount_in_wei fresh_world)
    = Raise TypeError /\
  fst (bot sample_cfg unsigning_web3 1 fresh_world) = Raise TypeError /\
  vars (snd (bot sample_cfg unsigning_web3 1 fresh_world)) = zero_progress.
Proof. repeat split; vm_compute; reflexivity. Qed.

(** C3 as stated fails: started on the stale status file, the script ends
    normally with the file still in place. *)
Lemma stale_file_survives_exit :
  ~ (forall w',
       bot sample_cfg obliging_web3 7 stale_world = (Ret tt, w') ->
       total_tx (vars w') = 90 /\ file w' = None).
Proof.
  intros H.
  specialize (H (snd (bot sample_cfg obliging_web3 7 stale_world))).
  destruct H as [_ H]; [vm_compute; reflexivity |].
  vm_compute in H. discriminate.
Qed.

(** C9 as stated fails: a status file that parses as JSON but lacks the
    members is not a status record, and loading it raises [KeyError].  So
    does, with [UnicodeDecodeError], a file whose bytes are not text. *)
Lemma empty_object_aborts_load :
  is_status_record (file empty_object_world) = false /\
  load_transaction_status empty_object_world
    = (Raise (KeyError "wrap_counter"), empty_object_world) /\
  is_status_record (file undecodable_world) = false /\
  load_transaction_status undecodable_world
    = (Raise UnicodeDecodeError, undecodable_world).
Proof. repeat split. Qed.

(** C4 as stated fails, in two ways.  Started with counters (0, 0, 89)
    on an account without native balance, the wrap of the first iteration
    is refused by the gate; the unwrap that follows confirms and brings
    the total to 90, so the loop is left in that same iteration, however
    many iterations it might still start.  Started afresh on such an
    account with a client that cannot sign, the wrap is refused likewise
    and the unwrap that follows raises at the signing, which ends the
    script in that same iteration.  Either run has made one wrap attempt
    and never comes back to it. *)
Lemma refused_wrap_is_not_retried :
  (eligible Wrap (vars skewed_world) = true /\
   fst (attempt sample_cfg dry_web3 Wrap skewed_world) = Ret false /\
   head (trace (snd (attempt sample_cfg dry_web3 Wrap skewed_world)))
     = Some (EvPrint MsgInsufficientEth) /\
   (forall fuel,
      main_loop sample_cfg dry_web3 (S fuel) skewed_world
      = main_loop sample_cfg dry_web3 1 skewed_world) /\
   fst (main_loop sample_cfg dry_web3 1 skewed_world) = Ret tt /\
   vars (snd (main_loop sample_cfg dry_web3 1 skewed_world))
     = mkProgress 0 1 90 /\
   count is_deposit_estimate
     (trace (snd (main_loop sample_cfg dry_web3 1 skewed_world))) = 1%nat) /\
  (consistent (vars fresh_world) /\
   eligible Wrap (vars fresh_world) = true /\
   fst (attempt sample_cfg dry_unsigning_web3 Wrap fresh_world) = Ret false /\
   head (trace (snd (attempt sample_cfg dry_unsigning_web3 Wrap fresh_world)))
     = Some (EvPrint MsgInsufficientEth) /\
   (forall fuel,
      main_loop sample_cfg dry_unsigning_web3 (S fuel) fresh_world
      = main_loop sample_cfg dry_unsigning_web3 1 fresh_world) /\
   fst (main_loop sample_cfg dry_unsigning_web3 1 fresh_world)
     = Raise TypeError /\
   count is_deposit_estimate
     (trace (snd (main_loop sample_cfg dry_unsigning_web3 1 fresh_world)))
     = 1%nat).
Proof.
  split.
  - split; [vm_compute; reflexivity |].
    split; [vm_compute; reflexivity |].
    split; [vm_compute; reflexivity |].
    split; [| repeat split; vm_compute; reflexivity].
    intros fuel. rewrite !main_loop_run.
    change (total_tx (vars skewed_world) <? 90) with true. cbv iota.
    destruct (branch sample_cfg dry_web3 Wrap skewed_world)
      as [r1 w1] eqn:E1.
    vm_compute in E1. inversion E1; subst r1 w1; clear E1.
    match goal with
    | |- context [branch sample_cfg dry_web3 Unwrap ?w] =>
        destruct (branch sample_cfg dry_web3 Unwrap w) as [r2 w2] eqn:E2
    end.
    vm_compute in E2. inversion E2; subst r2 w2; clear E2.
    reflexivity.
  - split; [vm_compute; reflexivity |].
    split; [vm_compute; reflexivity |].
    split; [vm_compute; reflexivity |].
    split; [vm_compute; reflexivity |].
    split; [| split; vm_compute; reflexivity].
    intros fuel. rewrite !main_loop_run.
    change (total_tx (vars fresh_world) <? 90) with true. cbv iota.
    destruct (branch sample_cfg dry_unsigning_web3 Wrap fresh_world)
      as [r1 w1] eqn:E1.
    vm_compute in E1. inversion E1; subst r1 w1; clear E1.
    match goal with
    | |- context [branch sample_cfg dry_unsigning_web3 Unwrap ?w] =>
        destruct (branch sample_cfg dry_unsigning_web3 Unwrap w)
          as [r2 w2] eqn:E2
    end.
    vm_compute in E2. inversion E2; subst r2 w2; clear E2.
    reflexivity.
Qed.

(** ** Scenarios *)

(** Fresh state, the first wrap confirms: the counters become (1, 0, 1)
    and the file holds them. *)
Example first_wrap_confirms :
  let w := snd (wrap_branch sample_cfg obliging_web3 fresh_world) in
  vars w = mkProgress 1 0 1 /\
  file w = Some (JsonObject (status_dict 1 0 1)).
Proof. vm_compute. split; reflexivity. Qed.

(** State (45, 44, 89): the wrap branch is skipped, the unwrap confirms,
    the loop is left with (45, 45, 90) and the file is deleted. *)
Example last_unwrap_ends_the_run :
  let out :=
    main_loop sample_cfg obliging_web3 1
      (world0 (mkProgress 45 44 89)
              (Some (JsonObject (status_dict 45 44 89)))) in
  fst out = Ret tt /\
  vars (snd out) = mkProgress 45 45 90 /\
  file (snd out) = None /\
  head (trace (snd out)) = Some (EvPrint MsgFileDeleted).
Proof. vm_compute. repeat split; reflexivity. Qed.

(** The gate says no: nothing is sent, the counters stay, and the next
    cycle tries again (and fails again, on this node). *)
Example gate_refusal_is_retried :
  let out := main_loop sample_cfg broke_web3 2 fresh_world in
  fst out = OutOfFuel /\
  vars (snd out) = zero_progress /\
  file (snd out) = None /\
  count_occ Nat.eq_dec
    (map (fun ev => match ev with EvPrint MsgInsufficientEth => 1 | _ => 0 end)
         (trace (snd out)))%nat 1%nat = 2%nat /\
  forallb (fun ev => match ev with EvSendRaw _ _ => false | _ => true end)
          (trace (snd out)) = true.
Proof. vm_compute. repeat split; reflexivity. Qed.

(** The data of the unwrap of 0.4 ether. *)
Example unwrap_data :
  (fun r => match r with
            | Ok arg => tx_data (unwrap_transaction sample_cfg 0 0 arg)
            | Err _ => EmptyString
            end) (to_bytes amount_in_wei 32)
  = "0x2e1a7d4d000000000000000000000000000000000000000000000000058d15e176280000".
Proof. vm_compute. reflexivity. Qed.

(** ** The theorems at work *)

Lemma saved_counters_consistent_witness :
  consistent (vars near_quota) /\
  consistent (vars (snd near_quota_run)) /\
  forall p, In (EvSave p) (trace (snd near_quota_run)) ->
            In (EvSave p) (trace near_quota) \/ consistent p.
Proof.
  split; [vm_compute; reflexivity |].
  apply (saved_counters_consistent sample_cfg obliging_web3 5 near_quota
           (fst near_quota_run) (snd near_quota_run)).
  - vm_compute; reflexivity.
  - vm_compute; reflexivity.
Defined.

Lemma counters_within_quota_witness :
  within_quota (vars (snd near_quota_run)) /\
  forall p, In (EvStore p) (trace (snd near_quota_run)) ->
            In (EvStore p) (trace near_quota) \/ within_quota p.
Proof.
  apply (counters_within_quota sample_cfg obliging_web3 5 near_quota
           (fst near_quota_run) (snd near_quota_run)).
  - vm_compute. repeat split; discriminate.
  - vm_compute; reflexivity.
Defined.

Lemma loop_left_exactly_at_quota_witness :
  fst near_quota_run = Ret tt /\
  total_tx (vars (snd near_quota_run)) = 90 /\
  file (snd near_quota_run) = None.
Proof.
  split; [vm_compute; reflexivity |].
  apply (loop_left_exactly_at_quota sample_cfg obliging_web3 5 near_quota
           (fst near_quota_run) (snd near_quota_run)).
  - vm_compute; reflexivity.
  - vm_compute; reflexivity.
  - vm_compute; reflexivity.
Defined.

Lemma failed_attempt_is_retried_witness :
  fst broke_attempt = Ret false /\
  branch sample_cfg broke_web3 Wrap fresh_world = (Ret tt, snd broke_attempt) /\
  drift fresh_world (snd broke_attempt) /\
  eligible Wrap (vars (snd broke_attempt)) = true /\
  main_loop sample_cfg broke_web3 3 fresh_world
    = main_loop sample_cfg broke_web3 2 (slept 10 (snd broke_cycle)) /\
  total_tx (vars (slept 10 (snd broke_cycle))) < 90 /\
  forall wk',
    at_guard sample_cfg broke_web3 Wrap (slept 10 (snd broke_cycle)) wk' ->
    eligible Wrap (vars wk') = true.
Proof.
  destruct (failed_attempt_is_retried sample_cfg broke_web3 Wrap 2
              fresh_world fresh_world
              (fst broke_attempt) (snd broke_attempt) (snd broke_cycle)
              MsgInsufficientEth InsufficientBalance)
    as (Hr & Hb & Hd & Hg & Hnext).
  - vm_compute; reflexivity.
  - reflexivity.
  - vm_compute; reflexivity.
  - vm_compute; reflexivity.
  - vm_compute; reflexivity.
  - vm_compute; reflexivity.
  - split; [exact Hr |]. split; [exact Hb |]. split; [exact Hd |].
    split; [exact Hg |]. apply Hnext.
    + vm_compute; reflexivity.
    + vm_compute; reflexivity.
Defined.

(** Two queries raise, at clock 0 and 70; the third, started at 140 and
    so inside the window of 300, finds the receipt. *)
Lemma watcher_reports_witness :
  reported Confirmed [Byte.xaa]
    (wait_for_confirmation slow_web3 [Byte.xaa] 300 fresh_world).
Proof.
  refine (proj1 (proj1 (proj2 (proj2
            (watcher_reports slow_web3 [Byte.xaa] 300 fresh_world)))
            2%nat _) _ _).
  - intros k Hk.
    destruct k as [| [| k]]; [| | exfalso; lia]; vm_compute; split; reflexivity.
  - vm_compute; reflexivity.
  - vm_compute; reflexivity.
Defined.

Lemma load_defaults_to_zero_witness :
  load_transaction_status truncated_world = (Ret zero_progress, truncated_world)
  /\ load_transaction_status fresh_world = (Ret zero_progress, fresh_world)
  /\ load_transaction_status undecodable_world
     = (Raise UnicodeDecodeError, undecodable_world).
Proof.
  split; [| split].
  - apply (proj1 (load_defaults_to_zero truncated_world)). right. reflexivity.
  - apply (proj1 (load_defaults_to_zero fresh_world)). left. reflexivity.
  - apply (proj2 (load_defaults_to_zero undecodable_world) UnicodeDecodeError).
    + reflexivity.
    + discriminate.
    + discriminate.
Defined.

Lemma quota_already_met_leaves_file_witness :
  bot sample_cfg obliging_web3 7 stale_world =
    (Ret tt,
     mkWorld (mkProgress 45 45 90) (file stale_world) (now stale_world)
             (calls stale_world)
             (EvStore (mkProgress 45 45 90) :: trace stale_world))
  /\ file stale_world <> None.
Proof.
  apply (quota_already_met_leaves_file sample_cfg obliging_web3 7 stale_world
           (mkProgress 45 45 90) stale_world).
  - vm_compute; reflexivity.
  - vm_compute. discriminate.
Defined.

(** * The progress store *)

Lemma status_dict_lookup a b c :
  status_dict a b c !! "wrap_counter" = Some a /\
  status_dict a b c !! "unwrap_counter" = Some b /\
  status_dict a b c !! "total_tx" = Some c.
Proof.
  unfold status_dict. split; [| split].
  - apply lookup_insert_eq.
  - rewrite lookup_insert_ne by discriminate. apply lookup_insert_eq.
  - rewrite !lookup_insert_ne by discriminate. apply lookup_insert_eq.
Qed.


(** * Resuming *)

Lemma in_sync_same w w1 :
  vars w1 = vars w -> file w1 = file w -> in_sync w -> in_sync w1.
Proof.
  unfold in_sync. rewrite !load_transaction_status_run.
  intros -> ->.
  destruct (file w) as [[| | d | e] |];
    try destruct (missing_or_undecodable e); try discriminate;
    try (intros H; injection H as Hp; rewrite <- Hp; reflexivity).
  destruct (d !! "wrap_counter"); [| discriminate].
  destruct (d !! "unwrap_counter"); [| discriminate].
  destruct (d !! "total_tx"); [| discriminate].
  intros H; injection H as Hp; rewrite <- Hp; reflexivity.
Qed.

Lemma in_sync_drift w w1 : in_sync w -> drift w w1 -> in_sync w1.
Proof. intros Hs (Hv & Hf & _). now apply (in_sync_same w). Qed.

Lemma in_sync_counted k w : in_sync (counted k w).
Proof.
  unfold in_sync. rewrite load_transaction_status_run.
  cbn [counted file vars].
  match goal with
  | |- context [status_dict ?a ?b ?c] =>
      destruct (status_dict_lookup a b c) as (-> & -> & ->)
  end.
  reflexivity.
Qed.

Lemma branch_in_sync cfg web3 k w :
  in_sync w -> in_sync (snd (branch cfg web3 k w)).
Proof.
  apply (branch_invariant cfg web3 in_sync).
  - intros x x'. apply in_sync_drift.
  - intros k' x _ _. apply in_sync_counted.
Qed.

Lemma main_loop_in_sync cfg web3 fuel : forall w r w',
  in_sync w ->
  main_loop cfg web3 fuel w = (r, w') ->
  in_sync w' \/ (r = Ret tt /\ file w' = None /\ 90 <= total_tx (vars w')).
Proof.
  induction fuel as [| fuel IH]; intros w r w' Hs; rewrite main_loop_run;
    (destruct (total_tx (vars w) <? 90);
     [| intros H; inversion H; subst; now left]).
  - intros H; inversion H; subst; now left.
  - pose proof (branch_in_sync cfg web3 Wrap w Hs) as H1.
    destruct (branch cfg web3 Wrap w) as [[[] | e |] w1]; simpl in H1;
      try (intros H; inversion H; subst; now left).
    pose proof (branch_in_sync cfg web3 Unwrap w1 H1) as H2.
    destruct (branch cfg web3 Unwrap w1) as [[[] | e |] w2]; simpl in H2;
      try (intros H; inversion H; subst; now left).
    destruct (total_tx (vars w2) >=? 90) eqn:Hq.
    + intros H; inversion H; subst. right.
      rewrite cleared_file, cleared_vars. repeat split. lia.
    + apply IH. now apply (in_sync_same w2).
Qed.

(** Let the status file load at start.  Wherever the script then stops
    short of completing the quota (an uncaught exception, or any number of
    iterations of a run that goes on, or at once because the loaded total
    is 90 or more), loading the file as it is at that point returns
    exactly the counters the script has in memory: a restart counts
    nothing twice and forgets nothing.  The one other case is the normal
    end at the quota, where the file is gone. *)
Theorem restart_resumes cfg web3 fuel w p w0 r w' :
  load_transaction_status w = (Ret p, w0) ->
  bot cfg web3 fuel w = (r, w') ->
  load_transaction_status w' = (Ret (vars w'), w') \/
  (r = Ret tt /\ file w' = None /\ 90 <= total_tx (vars w')).
Proof.
  intros Hload Hrun.
  pose proof (load_transaction_status_world _ _ _ Hload) as ->.
  unfold bot in Hrun. rewrite bind_run, Hload in Hrun.
  rewrite bind_run in Hrun. simpl in Hrun.
  eapply main_loop_in_sync; [| exact Hrun].
  apply (in_sync_same
           (mkWorld p (file w) (now w) (calls w) (trace w)));
    try reflexivity.
  unfold in_sync. rewrite load_transaction_status_run in *. simpl.
  destruct (file w) as [[| | d | e] |];
    try destruct (missing_or_undecodable e); try discriminate;
    try (inversion Hload; reflexivity).
  destruct (d !! "wrap_counter"); [| discriminate].
  destruct (d !! "unwrap_counter"); [| discriminate].
  destruct (d !! "total_tx"); [| discriminate].
  inversion Hload; reflexivity.
Qed.

(** * The watcher, counted *)

Lemma count_app f a b : count f (a ++ b) = (count f a + count f b)%nat.
Proof.
  induction a as [| x a IH]; simpl; [reflexivity |].
  destruct (f x); simpl; now rewrite IH.
Qed.

Lemma count_none f g t :
  (forall ev, g ev = true -> f ev = false) ->
  forallb g t = true -> count f t = O.
Proof.
  intros Hfg. induction t as [| x t IH]; simpl; [reflexivity |].
  intros H. apply andb_true_iff in H. destruct H as [Hx Ht].
  rewrite (Hfg x Hx). auto.
Qed.

Section WatcherCount.

Variable web3 : Web3.
Variable tx_hash : TxHash.
Variables timeout start_time : Z.

Lemma wait_loop_anatomy fuel : forall w,
  timeout <= now w - start_time + 30 * Z.of_nat fuel ->
  exists b watch w',
    wait_loop web3 fuel tx_hash timeout start_time w = (Ret b, w') /\
    trace w' = watch ++ trace w /\
    forallb watch_event watch = true /\
    count is_confirmation watch = (if b then 1%nat else 0%nat) /\
    (let n := Z.of_nat (count is_receipt_query watch) in
     n = 0 \/ 30 * (n - 1) + (now w - start_time) < timeout) /\
    (head (trace w') = Some (EvPrint (MsgTimeout tx_hash)) ->
     timeout <= now w' - start_time).
Proof.
  induction fuel as [| fuel IH]; intros w Hfuel; rewrite wait_loop_run;
    destruct (now w - start_time <? timeout) eqn:Hwin;
    try (exists false, [EvPrint (MsgTimeout tx_hash)]; eexists;
         split; [reflexivity |]; simpl;
         repeat (split; [reflexivity |]); split; [now left | lia]).
  - lia.
  - destruct (verdict (get_transaction_receipt web3 (calls w) tx_hash))
      as [b |] eqn:Hv.
    + exists b.
      exists ((if b then [EvPrint (MsgConfirmed tx_hash)]
               else [EvPrint (MsgReverted tx_hash)])
              ++ [EvGetReceipt tx_hash
                    (get_transaction_receipt web3 (calls w) tx_hash)]).
      eexists. split; [reflexivity |].
      unfold polled. rewrite Hv.
      destruct b; simpl; (split; [reflexivity |]);
        repeat (split; [reflexivity |]);
        (split; [right; lia | discriminate]).
    + destruct (IH (slept 30 (polled web3 tx_hash w)))
        as (b & watch & w' & Hrun & Ht & Hw & Hc & Hn & Hto).
      { simpl. lia. }
      exists b.
      exists (watch ++ [EvSleep 30;
                        EvGetReceipt tx_hash
                          (get_transaction_receipt web3 (calls w) tx_hash)]).
      exists w'. split; [exact Hrun |].
      split.
      { rewrite Ht. unfold polled. rewrite Hv. simpl.
        now rewrite <- app_assoc. }
      split; [rewrite forallb_app, Hw; reflexivity |].
      split; [rewrite count_app, Hc; simpl; lia |].
      split; [| exact Hto].
      cbv zeta in Hn |- *. rewrite count_app. simpl count.
      simpl now in Hn. right. lia.
Qed.

End WatcherCount.

(** The watcher returns a boolean, and what it does in between is query
    receipts, sleep, and print one of its three lines.  It makes at most
    one query per 30 units of the timeout, rounded up (so at most 10 with
    the timeout of 300 that both attempts use), and it reports a timeout
    only once the timeout has indeed elapsed. *)
Theorem watcher_is_bounded web3 tx_hash timeout w :
  exists b watch w',
    wait_for_confirmation web3 tx_hash timeout w = (Ret b, w') /\
    trace w' = watch ++ trace w /\
    forallb watch_event watch = true /\
    (let n := Z.of_nat (count is_receipt_query watch) in
     (n = 0 \/ 30 * (n - 1) < timeout) /\
     (timeout <= 300 -> n <= 10)) /\
    (head (trace w') = Some (EvPrint (MsgTimeout tx_hash)) ->
     timeout <= now w' - now w).
Proof.
  rewrite wait_for_confirmation_run.
  destruct (wait_loop_anatomy web3 tx_hash timeout (now w)
              (max_polls timeout) w)
    as (b & watch & w' & Hrun & Ht & Hw & _ & Hn & Hto).
  { pose proof (max_polls_enough timeout). lia. }
  exists b, watch, w'. repeat (split; [assumption |]).
  split; [| exact Hto].
  cbv zeta in Hn |- *. split; [| intros Hle]; lia.
Qed.

(** * The shape of an attempt *)

Lemma gate_events cfg web3 amount is_wrap :
  quiet_by gate_event (has_sufficient_balance cfg web3 amount is_wrap).
Proof.
  unfold has_sufficient_balance, do_estimate_gas, check_eth_balance,
    check_weth_balance.
  quiet_auto.
Qed.

(** The gate, run: a boolean, and gate events on top of the trace. *)
Lemma gate_run cfg web3 amount is_wrap w :
  exists b w1 g,
    has_sufficient_balance cfg web3 amount is_wrap w = (Ret b, w1) /\
    trace w1 = g ++ trace w /\ forallb gate_event g = true.
Proof.
  destruct (gate_returns cfg web3 amount is_wrap w) as (b & w1 & Hrun).
  destruct (gate_events cfg web3 amount is_wrap w)
    as (_ & _ & _ & g & Ht & Hg).
  rewrite Hrun in Ht. simpl in Ht. now exists b, w1, g.
Qed.

(** Sending and watching, run. *)
Lemma send_and_wait_run web3 raw sent failed w r wout :
  try_except
    (tx_hash ← do_send web3 raw;
     print (sent tx_hash);;
     wait_for_confirmation web3 tx_hash 300)
    any_Exception
    (fun e => print (failed e);; mret false) w = (r, wout) ->
  (exists e,
     r = Ret false /\
     trace wout = EvPrint (failed e) :: EvSendRaw raw (Err e) :: trace w)
  \/
  (exists h b watch,
     r = Ret b /\
     trace wout =
       watch ++ EvPrint (sent h) :: EvSendRaw raw (Ok h) :: trace w /\
     forallb watch_event watch = true /\
     count is_confirmation watch = (if b then 1%nat else 0%nat)).
Proof.
  intros Hout.
  unfold try_except in Hout. rewrite bind_run in Hout.
  unfold do_send, remote in Hout.
  destruct (send_raw_transaction web3 (calls w) raw) as [h | e];
    simpl lift in Hout.
  - right. rewrite ret_run, bind_run in Hout.
    unfold print, log in Hout. cbv iota beta in Hout.
    rewrite wait_for_confirmation_run in Hout.
    match type of Hout with
    | context [wait_loop web3 ?f h 300 ?s ?w'] =>
        destruct (wait_loop_anatomy web3 h 300 s f w')
          as (b & watch & w2 & Hrun & Ht & Hw & Hc & _)
    end.
    { pose proof (max_polls_enough 300). simpl now. lia. }
    rewrite Hrun in Hout. inversion Hout; subst.
    exists h, b, watch. simpl. repeat split; assumption.
  - left. exists e. unfold raise in Hout. simpl in Hout.
    inversion Hout; subst. split; reflexivity.
Qed.

(** Steps an attempt, kept in the hypothesis [H], past one remote call. *)
Ltac step_remote H :=
  rewrite bind_run in H; unfold remote in H;
  cbn [calls vars file now trace] in H.

Lemma wrap_shape cfg web3 amount w r wout :
  wrap_eth_to_weth cfg web3 amount w = (r, wout) ->
  exists evs, trace wout = evs ++ trace w /\ WrapShape cfg web3 amount r evs.
Proof.
  intros Hout. unfold wrap_eth_to_weth in Hout. unfold WrapShape.
  rewrite bind_run in Hout.
  destruct (gate_run cfg web3 amount true w)
    as (b & w1 & g & Hgate & Ht1 & Hg).
  rewrite Hgate in Hout.
  destruct b; cbn [negb] in Hout.
  2:{ inversion Hout; subst. exists (EvPrint MsgInsufficientEth :: g).
      split; [simpl; now rewrite Ht1 | now constructor]. }
  unfold get_next_nonce in Hout. step_remote Hout.
  destruct (get_transaction_count web3 (calls w1) (my_address cfg))
    as [nonce | e]; simpl lift in Hout.
  2:{ inversion Hout; subst. eexists. simpl. rewrite Ht1.
      split; [apply app_comm_cons | now constructor]. }
  rewrite ret_run in Hout. unfold do_estimate_gas in Hout. step_remote Hout.
  destruct (estimate_gas web3 (S (calls w1)) (deposit_call cfg amount))
    as [gas | e]; simpl lift in Hout.
  2:{ inversion Hout; subst. eexists. simpl. rewrite Ht1.
      split; [do 2 rewrite app_comm_cons; reflexivity | now constructor]. }
  rewrite ret_run, do_sign_bind in Hout.
  cbn [calls vars file now trace] in Hout.
  destruct (sign_transaction web3 (wrap_transaction cfg nonce gas amount)
              (private_key cfg)) as [raw | e].
  2:{ inversion Hout; subst. eexists. simpl. rewrite Ht1.
      split; [do 3 rewrite app_comm_cons; reflexivity |].
      now apply shape_not_signed with (nonce := nonce) (gas := gas). }
  apply send_and_wait_run in Hout.
  destruct Hout as [(e & -> & Ht) | (h' & b & watch & -> & Ht & Hw & Hc)];
    rewrite Ht; cbn [trace]; rewrite Ht1.
  - eexists. split; [do 5 rewrite app_comm_cons; reflexivity |].
    now apply shape_not_sent with (nonce := nonce) (gas := gas).
  - exists (watch ++ EvPrint (MsgWrapSent h') :: EvSendRaw raw (Ok h')
              :: EvSign (wrap_transaction cfg nonce gas amount) (Ok raw)
              :: EvEstimateGas (deposit_call cfg amount) (Ok gas)
              :: EvGetTransactionCount (my_address cfg) (Ok nonce) :: g).
    split; [now rewrite <- app_assoc |].
    now apply shape_watched.
Qed.

Lemma unwrap_shape cfg web3 amount w r wout :
  unwrap_weth_to_eth cfg web3 amount w = (r, wout) ->
  exists evs, trace wout = evs ++ trace w /\ UnwrapShape cfg web3 amount r evs.
Proof.
  intros Hout. unfold unwrap_weth_to_eth in Hout. unfold UnwrapShape.
  rewrite bind_run in Hout.
  destruct (gate_run cfg web3 amount false w)
    as (b & w1 & g & Hgate & Ht1 & Hg).
  rewrite Hgate in Hout.
  destruct b; cbn [negb] in Hout.
  2:{ inversion Hout; subst. exists (EvPrint MsgInsufficientWeth :: g).
      split; [simpl; now rewrite Ht1 | now constructor]. }
  unfold get_next_nonce in Hout. step_remote Hout.
  destruct (get_transaction_count web3 (calls w1) (my_address cfg))
    as [nonce | e]; simpl lift in Hout.
  2:{ inversion Hout; subst. eexists. simpl. rewrite Ht1.
      split; [apply app_comm_cons | now constructor]. }
  rewrite ret_run in Hout. unfold do_estimate_gas in Hout. step_remote Hout.
  destruct (estimate_gas web3 (S (calls w1)) (withdraw_call cfg amount))
    as [gas | e]; simpl lift in Hout.
  2:{ inversion Hout; subst. eexists. simpl. rewrite Ht1.
      split; [do 2 rewrite app_comm_cons; reflexivity | now constructor]. }
  rewrite ret_run, bind_run in Hout.
  destruct (to_bytes amount 32) as [arg | e] eqn:Harg; simpl lift in Hout.
  2:{ inversion Hout; subst. eexists. simpl. rewrite Ht1.
      split; [do 2 rewrite app_comm_cons; reflexivity |].
      apply shape_not_built; [assumption |].
      unfold build_unwrap. now rewrite Harg. }
  assert (Hbuild : build_unwrap cfg amount nonce gas
                   = Ok (unwrap_transaction cfg nonce gas arg)).
  { unfold build_unwrap. now rewrite Harg. }
  rewrite ret_run, do_sign_bind in Hout.
  cbn [calls vars file now trace] in Hout.
  destruct (sign_transaction web3 (unwrap_transaction cfg nonce gas arg)
              (private_key cfg)) as [raw | e].
  2:{ inversion Hout; subst. eexists. simpl. rewrite Ht1.
      split; [do 3 rewrite app_comm_cons; reflexivity |].
      now apply shape_not_signed with (nonce := nonce) (gas := gas). }
  apply send_and_wait_run in Hout.
  destruct Hout as [(e & -> & Ht) | (h' & b & watch & -> & Ht & Hw & Hc)];
    rewrite Ht; cbn [trace]; rewrite Ht1.
  - eexists. split; [do 5 rewrite app_comm_cons; reflexivity |].
    now apply shape_not_sent with (nonce := nonce) (gas := gas).
  - exists (watch ++ EvPrint (MsgUnwrapSent h') :: EvSendRaw raw (Ok h')
              :: EvSign (unwrap_transaction cfg nonce gas arg) (Ok raw)
              :: EvEstimateGas (withdraw_call cfg amount) (Ok gas)
              :: EvGetTransactionCount (my_address cfg) (Ok nonce) :: g).
    split; [now rewrite <- app_assoc |].
    now apply shape_watched with (nonce := nonce) (gas := gas).
Qed.

(** ** What the shapes have in common *)

Section Shapes.

Variable cfg : Config.
Variable web3 : Web3.
Variable call : ContractCall.
Variable build : Z -> Z -> Exc Transaction.
Variable insufficient : Msg.
Variable sent : TxHash -> Msg.
Variable failed : exn -> Msg.

Hypothesis insufficient_plain : is_confirmation (EvPrint insufficient) = false.
Hypothesis sent_plain : forall h, is_confirmation (EvPrint (sent h)) = false.
Hypothesis failed_plain :
  forall e, is_confirmation (EvPrint (failed e)) = false.

Local Abbreviation Shape :=
  (AttemptShape cfg web3 call build insufficient sent failed).

Lemma gate_no_confirmation g :
  forallb gate_event g = true -> count is_confirmation g = O.
Proof.
  apply count_none. intros [] H; try discriminate; try reflexivity.
  destruct m; (discriminate || reflexivity).
Qed.

Lemma gate_no_broadcast g :
  forallb gate_event g = true -> count is_broadcast g = O.
Proof. apply count_none. intros [] H; (discriminate || reflexivity). Qed.

Lemma watch_no_broadcast t :
  forallb watch_event t = true -> count is_broadcast t = O.
Proof. apply count_none. intros [] H; (discriminate || reflexivity). Qed.

Lemma gate_no_such_event g ev :
  forallb gate_event g = true -> gate_event ev = false -> ~ In ev g.
Proof.
  intros Hg Hev Hin. rewrite forallb_forall in Hg. apply Hg in Hin. congruence.
Qed.

Lemma watch_no_such_event t ev :
  forallb watch_event t = true -> watch_event ev = false -> ~ In ev t.
Proof.
  intros Hg Hev Hin. rewrite forallb_forall in Hg. apply Hg in Hin. congruence.
Qed.

(** One line "Confirmed" when the attempt returns [True], none
    otherwise. *)
Lemma shape_confirmations r evs :
  Shape r evs ->
  count is_confirmation evs =
  match r with Ret true => 1%nat | _ => 0%nat end.
Proof.
  intros H. destruct H; cbn [count];
    rewrite ?count_app; cbn [count];
    rewrite ?insufficient_plain, ?sent_plain, ?failed_plain;
    cbn [is_confirmation];
    repeat match goal with
      | Hg : forallb gate_event ?l = true
        |- context [count is_confirmation ?l] =>
          rewrite (gate_no_confirmation l Hg)
      end;
    try reflexivity.
  match goal with
  | Hc : count is_confirmation _ = _ |- _ => rewrite Hc
  end.
  destruct b; simpl; lia.
Qed.

(** At most one broadcast; none when the attempt raises; and what is
    broadcast is what the signing just before it returned. *)
Lemma shape_broadcast r evs :
  Shape r evs ->
  (count is_broadcast evs <= 1)%nat /\
  (forall e, r = Raise e -> count is_broadcast evs = O) /\
  (forall raw reply, In (EvSendRaw raw reply) evs ->
     exists after tx before,
       evs = after ++ EvSendRaw raw reply :: EvSign tx (Ok raw) :: before).
Proof.
  intros H. destruct H; cbn [count is_broadcast];
    rewrite ?count_app; cbn [count is_broadcast];
    repeat match goal with
      | Hg : forallb gate_event ?l = true |- context [count is_broadcast ?l] =>
          rewrite (gate_no_broadcast l Hg)
      | Hg : forallb watch_event ?l = true |- context [count is_broadcast ?l] =>
          rewrite (watch_no_broadcast l Hg)
      end;
    (split; [lia |]); (split; [intros ? ?; (discriminate || reflexivity) |]);
    intros raw' reply' Hin;
    rewrite ?in_app_iff in Hin; cbn [In] in Hin;
    repeat match goal with
      | H : _ \/ _ |- _ => destruct H as [H | H]
      | H : _ = EvSendRaw _ _ |- _ => inversion H; subst; clear H
      | H : In (EvSendRaw ?a ?b) ?l, Hl : forallb gate_event ?l = true |- _ =>
          exfalso;
          now apply (gate_no_such_event l (EvSendRaw a b) Hl eq_refl) in H
      | H : In (EvSendRaw ?a ?b) ?l, Hl : forallb watch_event ?l = true |- _ =>
          exfalso;
          now apply (watch_no_such_event l (EvSendRaw a b) Hl eq_refl) in H
      end.
  - match goal with
    | |- exists _ _ _, ?pre :: EvSendRaw _ _ :: _ = _ => exists [pre]
    end.
    do 2 eexists. reflexivity.
  - match goal with
    | |- exists _ _ _, ?pre ++ ?p :: EvSendRaw _ _ :: _ = _ =>
        exists (pre ++ [p])
    end.
    do 2 eexists. rewrite <- app_assoc. reflexivity.
Qed.

(** Whatever is signed was built from the nonce and the gas estimate
    replied just before. *)
Lemma shape_signed r evs tx s :
  Shape r evs -> In (EvSign tx s) evs ->
  exists after nonce gas before,
    build nonce gas = Ok tx /\
    evs = after ++ EvSign tx s :: EvEstimateGas call (Ok gas)
            :: EvGetTransactionCount (my_address cfg) (Ok nonce) :: before.
Proof.
  intros H Hin. destruct H;
    rewrite ?in_app_iff in Hin; cbn [In] in Hin;
    repeat match goal with
      | H : _ \/ _ |- _ => destruct H as [H | H]
      | H : _ = EvSign _ _ |- _ => inversion H; subst; clear H
      | H : In (EvSign ?a ?b) ?l, Hl : forallb gate_event ?l = true |- _ =>
          exfalso;
          now apply (gate_no_such_event l (EvSign a b) Hl eq_refl) in H
      | H : In (EvSign ?a ?b) ?l, Hl : forallb watch_event ?l = true |- _ =>
          exfalso;
          now apply (watch_no_such_event l (EvSign a b) Hl eq_refl) in H
      end.
  - exists []. do 3 eexists. split; [eassumption | reflexivity].
  - match goal with
    | |- exists _ _ _ _, _ /\ ?p :: ?q :: EvSign _ _ :: _ = _ =>
        exists [p; q]
    end.
    do 3 eexists. split; [eassumption | reflexivity].
  - match goal with
    | |- exists _ _ _ _, _ /\ ?pre ++ ?p :: ?q :: EvSign _ _ :: _ = _ =>
        exists (pre ++ [p; q])
    end.
    do 3 eexists. split; [eassumption | rewrite <- app_assoc; reflexivity].
Qed.

End Shapes.

Lemma attempt_shape cfg web3 k w r wout :
  attempt cfg web3 k w = (r, wout) ->
  exists evs, trace wout = evs ++ trace w /\
    match k with
    | Wrap => WrapShape cfg web3 amount_in_wei r evs
    | Unwrap => UnwrapShape cfg web3 amount_in_wei r evs
    end.
Proof. destruct k; [apply wrap_shape | apply unwrap_shape]. Qed.

Lemma attempt_confirmations cfg web3 k w r wout :
  attempt cfg web3 k w = (r, wout) ->
  count is_confirmation (trace wout) =
  (match r with Ret true => 1 | _ => 0 end
   + count is_confirmation (trace w))%nat.
Proof.
  intros Hrun. apply attempt_shape in Hrun.
  destruct Hrun as (evs & -> & Hshape). rewrite count_app. f_equal.
  destruct k; eapply shape_confirmations; try exact Hshape; reflexivity.
Qed.

Lemma drift_saves w w1 :
  drift w w1 -> count is_save (trace w1) = count is_save (trace w).
Proof.
  intros (_ & _ & _ & evs & -> & Hq). rewrite count_app.
  rewrite (count_none is_save quiet_event evs); [reflexivity | | exact Hq].
  intros [] H; (discriminate || reflexivity).
Qed.

(** * Counting exactly once *)

Lemma branch_counts cfg web3 k w r w1 :
  branch cfg web3 k w = (r, w1) ->
  total_tx (vars w1) - Z.of_nat (count is_save (trace w1))
    = total_tx (vars w) - Z.of_nat (count is_save (trace w)) /\
  total_tx (vars w1) - Z.of_nat (count is_confirmation (trace w1))
    = total_tx (vars w) - Z.of_nat (count is_confirmation (trace w)).
Proof.
  rewrite branch_run.
  destruct (eligible k (vars w)); [| intros H; inversion H; split; reflexivity].
  pose proof (quiet_attempt cfg web3 k w) as Hd.
  destruct (attempt cfg web3 k w) as [ra wa] eqn:Ha.
  apply attempt_confirmations in Ha.
  pose proof (drift_saves _ _ Hd) as Hs. destruct Hd as (Hv & _).
  simpl in Hs, Hv.
  destruct ra as [[|] | e |]; intros H; inversion H; subst; clear H;
    rewrite ?Hv, ?Hs, ?Ha; try (split; simpl; lia).
  cbn [counted trace vars count is_save is_confirmation].
  rewrite Hs, Ha, Hv.
  destruct k; simpl; split; lia.
Qed.

Lemma main_loop_counts cfg web3 fuel : forall w r w',
  main_loop cfg web3 fuel w = (r, w') ->
  total_tx (vars w') - Z.of_nat (count is_save (trace w'))
    = total_tx (vars w) - Z.of_nat (count is_save (trace w)) /\
  total_tx (vars w') - Z.of_nat (count is_confirmation (trace w'))
    = total_tx (vars w) - Z.of_nat (count is_confirmation (trace w)).
Proof.
  induction fuel as [| fuel IH]; intros w r w'; rewrite main_loop_run;
    (destruct (total_tx (vars w) <? 90);
     [| intros H; inversion H; split; reflexivity]).
  - intros H; inversion H; split; reflexivity.
  - destruct (branch cfg web3 Wrap w) as [r1 w1] eqn:H1.
    apply branch_counts in H1. destruct H1 as [Hs1 Hc1].
    destruct r1 as [[] | e |];
      try (intros H; inversion H; subst; split; assumption).
    destruct (branch cfg web3 Unwrap w1) as [r2 w2] eqn:H2.
    apply branch_counts in H2. destruct H2 as [Hs2 Hc2].
    destruct r2 as [[] | e |];
      try (intros H; inversion H; subst; split; lia).
    destruct (total_tx (vars w2) >=? 90).
    + intros H; inversion H; subst. rewrite cleared_vars.
      unfold cleared. destruct (file w2); simpl; split; lia.
    + intros H. apply IH in H. simpl in H. lia.
Qed.

(** Between any two points of a run of the main loop, [total_tx] grows by
    exactly the number of saves performed and by exactly the number of
    lines "Confirmed" printed in between: every confirmation is counted
    and saved once, and nothing else is. *)
Theorem counted_exactly_once cfg web3 fuel w r w' :
  main_loop cfg web3 fuel w = (r, w') ->
  total_tx (vars w') - total_tx (vars w)
    = Z.of_nat (count is_save (trace w'))
      - Z.of_nat (count is_save (trace w)) /\
  total_tx (vars w') - total_tx (vars w)
    = Z.of_nat (count is_confirmation (trace w'))
      - Z.of_nat (count is_confirmation (trace w)).
Proof.
  intros H. apply main_loop_counts in H. lia.
Qed.

(** * What an attempt sends *)

(** When the balance gate returns [False], the attempt returns [False]
    after printing its "Insufficient" line, and has done nothing but what
    the gate did: gas estimates, balance queries and the gate's own error
    line.  No sequence number is fetched, nothing is signed, nothing is
    broadcast. *)
Theorem gate_refusal_sends_nothing cfg web3 amount (is_wrap : bool) w wg :
  has_sufficient_balance cfg web3 amount is_wrap w = (Ret false, wg) ->
  let out :=
    if is_wrap then wrap_eth_to_weth cfg web3 amount w
    else unwrap_weth_to_eth cfg web3 amount w in
  fst out = Ret false /\
  exists g,
    trace (snd out) =
      EvPrint (if is_wrap then MsgInsufficientEth else MsgInsufficientWeth)
        :: g ++ trace w /\
    forallb gate_event g = true.
Proof.
  intros Hgate. cbv zeta.
  destruct (gate_events cfg web3 amount is_wrap w)
    as (_ & _ & _ & g & Ht & Hg).
  rewrite Hgate in Ht. simpl in Ht.
  destruct is_wrap; unfold wrap_eth_to_weth, unwrap_weth_to_eth;
    rewrite bind_run, Hgate; simpl; (split; [reflexivity |]);
    exists g; rewrite Ht; split;
    [reflexivity | assumption | reflexivity | assumption].
Qed.

(** ** The payload, built, signed and sent *)

(** Signing and what follows it, run: the signing is logged, and when it
    returns, the next event is the broadcast of what it returned. *)
Lemma sign_send_run cfg web3 tx sent failed w :
  exists after,
    trace (snd ((do_sign cfg web3 tx ≫= fun raw =>
                   try_except
                     (tx_hash ← do_send web3 raw;
                      print (sent tx_hash);;
                      wait_for_confirmation web3 tx_hash 300)
                     any_Exception
                     (fun e => print (failed e);; mret false)) w))
      = after ++ EvSign tx (sign_transaction web3 tx (private_key cfg))
          :: trace w /\
    forall raw, sign_transaction web3 tx (private_key cfg) = Ok raw ->
      exists after' reply, after = after' ++ [EvSendRaw raw reply].
Proof.
  rewrite do_sign_bind.
  destruct (sign_transaction web3 tx (private_key cfg)) as [raw | e].
  - match goal with
    | |- context [try_except ?b ?c ?h ?w4] =>
        destruct (try_except b c h w4) as [r wout] eqn:Hout
    end.
    apply send_and_wait_run in Hout.
    destruct Hout as [(e & -> & Ht) | (h & b & watch & -> & Ht & _)];
      cbn [snd]; rewrite Ht; cbn [trace].
    + exists [EvPrint (failed e); EvSendRaw raw (Err e)].
      split; [reflexivity |].
      intros raw' Heq. inversion Heq; subst raw'.
      now exists [EvPrint (failed e)], (Err e).
    + exists (watch ++ [EvPrint (sent h); EvSendRaw raw (Ok h)]).
      split; [now rewrite <- app_assoc |].
      intros raw' Heq. inversion Heq; subst raw'.
      exists (watch ++ [EvPrint (sent h)]), (Ok h).
      now rewrite <- app_assoc.
  - exists []. split; [reflexivity |]. intros raw Heq. discriminate.
Qed.

(** Past the signing, [tx] is among the events of the call, and so is the
    broadcast of its signed bytes. *)
Lemma signed_and_sent cfg web3 tx (evs after tail : list Event) :
  evs = after ++ EvSign tx (sign_transaction web3 tx (private_key cfg))
          :: tail ->
  (forall raw, sign_transaction web3 tx (private_key cfg) = Ok raw ->
     exists after' reply, after = after' ++ [EvSendRaw raw reply]) ->
  signs_and_sends cfg web3 evs tx.
Proof.
  intros -> Hsend. split.
  - apply in_app_iff. right. now left.
  - intros raw Hs. destruct (Hsend raw Hs) as (after' & reply & ->).
    exists reply. rewrite !in_app_iff. left. right. now left.
Qed.

(** With the gate passed, the sequence number and the gas estimate
    replied, a wrap does sign the transaction built from them, and sends
    it. *)
Lemma wrap_signs_and_sends cfg web3 amount w w1 nonce gas evs :
  trace (snd (wrap_eth_to_weth cfg web3 amount w)) = evs ++ trace w ->
  has_sufficient_balance cfg web3 amount true w = (Ret true, w1) ->
  get_transaction_count web3 (calls w1) (my_address cfg) = Ok nonce ->
  estimate_gas web3 (S (calls w1)) (deposit_call cfg amount) = Ok gas ->
  signs_and_sends cfg web3 evs (wrap_transaction cfg nonce gas amount).
Proof.
  intros Hevs Hgate Hn Hg.
  destruct (gate_events cfg web3 amount true w) as (_ & _ & _ & g & Ht1 & _).
  rewrite Hgate in Ht1. simpl in Ht1.
  unfold wrap_eth_to_weth in Hevs. rewrite bind_run, Hgate in Hevs.
  cbn [negb] in Hevs. unfold get_next_nonce in Hevs. step_remote Hevs.
  rewrite Hn in Hevs. simpl lift in Hevs.
  rewrite ret_run in Hevs. unfold do_estimate_gas in Hevs. step_remote Hevs.
  rewrite Hg in Hevs. simpl lift in Hevs. rewrite ret_run in Hevs.
  match type of Hevs with
  | context [(do_sign cfg web3 ?tx ≫= _) ?w4] =>
      destruct (sign_send_run cfg web3 tx MsgWrapSent MsgErrorSendingWrap w4)
        as (after & Ht & Hsend)
  end.
  rewrite Ht in Hevs. cbn [trace] in Hevs. rewrite Ht1 in Hevs.
  match type of Hevs with
  | _ ++ _ :: ?x :: ?y :: _ = _ =>
      apply (signed_and_sent cfg web3 _ evs after (x :: y :: g));
        [| exact Hsend]
  end.
  apply app_inv_tail with (trace w). rewrite <- Hevs, <- app_assoc.
  reflexivity.
Qed.

(** The same for an unwrap whose amount fits 32 bytes. *)
Lemma unwrap_signs_and_sends cfg web3 amount w w1 nonce gas arg evs :
  trace (snd (unwrap_weth_to_eth cfg web3 amount w)) = evs ++ trace w ->
  has_sufficient_balance cfg web3 amount false w = (Ret true, w1) ->
  get_transaction_count web3 (calls w1) (my_address cfg) = Ok nonce ->
  estimate_gas web3 (S (calls w1)) (withdraw_call cfg amount) = Ok gas ->
  to_bytes amount 32 = Ok arg ->
  signs_and_sends cfg web3 evs (unwrap_transaction cfg nonce gas arg).
Proof.
  intros Hevs Hgate Hn Hg Harg.
  destruct (gate_events cfg web3 amount false w) as (_ & _ & _ & g & Ht1 & _).
  rewrite Hgate in Ht1. simpl in Ht1.
  unfold unwrap_weth_to_eth in Hevs. rewrite bind_run, Hgate in Hevs.
  cbn [negb] in Hevs. unfold get_next_nonce in Hevs. step_remote Hevs.
  rewrite Hn in Hevs. simpl lift in Hevs.
  rewrite ret_run in Hevs. unfold do_estimate_gas in Hevs. step_remote Hevs.
  rewrite Hg in Hevs. simpl lift in Hevs.
  rewrite ret_run, bind_run, Harg in Hevs. simpl lift in Hevs.
  rewrite ret_run in Hevs.
  match type of Hevs with
  | context [(do_sign cfg web3 ?tx ≫= _) ?w4] =>
      destruct (sign_send_run cfg web3 tx MsgUnwrapSent MsgErrorSendingUnwrap
                  w4) as (after & Ht & Hsend)
  end.
  rewrite Ht in Hevs. cbn [trace] in Hevs. rewrite Ht1 in Hevs.
  match type of Hevs with
  | _ ++ _ :: ?x :: ?y :: _ = _ =>
      apply (signed_and_sent cfg web3 _ evs after (x :: y :: g));
        [| exact Hsend]
  end.
  apply app_inv_tail with (trace w). rewrite <- Hevs, <- app_assoc.
  reflexivity.
Qed.

(** Whatever an attempt broadcasts was returned by a signing of the same
    attempt. *)
Lemma broadcast_was_signed r evs :
  broadcasts_what_was_signed r evs ->
  forall raw reply, In (EvSendRaw raw reply) evs ->
    exists tx, In (EvSign tx (Ok raw)) evs.
Proof.
  intros (_ & _ & H) raw reply Hin.
  destruct (H raw reply Hin) as (after & tx & before & ->).
  exists tx. rewrite in_app_iff. right. right. now left.
Qed.

(** C8.  Take what either attempt appends to the trace.
    - Every transaction it signs there is addressed to the wrapped-token
      contract and carries as nonce the reply to a sequence-number query
      made in this same call, after the balance gate and just before the
      gas estimate that precedes the signing; for a wrap, it has the
      amount as its value and, as data, the four bytes d0 e3 0d b0 and
      nothing more; for an unwrap, it has no value and, as data, the four
      bytes 2e 1a 7d 4d followed by 32 bytes that read, big end first, as
      the amount.
    - Everything it broadcasts there is what the signing of such a
      transaction returned.
    - And it does submit: once the gate has passed and the attempt's
      queries for the sequence number and the gas have been answered (for
      an unwrap, with an amount that fits 32 bytes), the transaction built
      from the two replies is signed, and when the signer returns, its
      result is broadcast. *)
Theorem submitted_payload cfg web3 amount w :
  (exists evs,
     trace (snd (wrap_eth_to_weth cfg web3 amount w)) = evs ++ trace w /\
     (forall tx s, In (EvSign tx s) evs ->
        built_on_fresh_nonce cfg evs tx s /\
        tx_to tx = weth_contract_address cfg /\
        tx_value tx = Some amount /\
        tx_data tx = "0x" +:+ hex deposit_selector /\
        length deposit_selector = 4%nat) /\
     (forall raw reply, In (EvSendRaw raw reply) evs ->
        exists tx, In (EvSign tx (Ok raw)) evs) /\
     (forall w1 nonce gas,
        has_sufficient_balance cfg web3 amount true w = (Ret true, w1) ->
        get_transaction_count web3 (calls w1) (my_address cfg) = Ok nonce ->
        estimate_gas web3 (S (calls w1)) (deposit_call cfg amount) = Ok gas ->
        signs_and_sends cfg web3 evs
          (wrap_transaction cfg nonce gas amount))) /\
  (exists evs,
     trace (snd (unwrap_weth_to_eth cfg web3 amount w)) = evs ++ trace w /\
     (forall tx s, In (EvSign tx s) evs ->
        built_on_fresh_nonce cfg evs tx s /\
        tx_to tx = weth_contract_address cfg /\
        tx_value tx = None /\
        exists arg,
          length arg = 32%nat /\ from_bytes arg = amount /\
          tx_data tx = "0x" +:+ hex (withdraw_selector ++ arg)) /\
     (forall raw reply, In (EvSendRaw raw reply) evs ->
        exists tx, In (EvSign tx (Ok raw)) evs) /\
     (forall w1 nonce gas arg,
        has_sufficient_balance cfg web3 amount false w = (Ret true, w1) ->
        get_transaction_count web3 (calls w1) (my_address cfg) = Ok nonce ->
        estimate_gas web3 (S (calls w1)) (withdraw_call cfg amount) = Ok gas ->
        to_bytes amount 32 = Ok arg ->
        signs_and_sends cfg web3 evs
          (unwrap_transaction cfg nonce gas arg))).
Proof.
  split.
  - destruct (wrap_signing cfg web3 amount w) as (evs & Ht & Hs).
    exists evs. split; [exact Ht |]. split; [| split].
    + intros tx s Hin. destruct (Hs tx s Hin) as [[gas Htx] Hb].
      split; [exact Hb |]. rewrite Htx.
      split; [reflexivity |]. split; [reflexivity |]. split; reflexivity.
    + destruct (wrap_shape cfg web3 amount w _ _ (surjective_pairing _))
        as (evs' & Ht' & Hshape).
      rewrite Ht in Ht'. apply app_inv_tail in Ht'. subst evs'.
      eapply broadcast_was_signed, shape_broadcast, Hshape.
    + intros w1 nonce gas. now apply wrap_signs_and_sends.
  - destruct (unwrap_signing cfg web3 amount w) as (evs & Ht & Hs).
    exists evs. split; [exact Ht |]. split; [| split].
    + intros tx s Hin.
      destruct (Hs tx s Hin) as [(gas & arg & Harg & Htx) Hb].
      apply to_bytes_ok in Harg. destruct Harg as [Hlen Hval].
      split; [exact Hb |]. rewrite Htx.
      split; [reflexivity |]. split; [reflexivity |].
      exists arg. split; [exact Hlen |]. split; [exact Hval |].
      rewrite hex_app. reflexivity.
    + destruct (unwrap_shape cfg web3 amount w _ _ (surjective_pairing _))
        as (evs' & Ht' & Hshape).
      rewrite Ht in Ht'. apply app_inv_tail in Ht'. subst evs'.
      eapply broadcast_was_signed, shape_broadcast, Hshape.
    + intros w1 nonce gas arg. now apply unwrap_signs_and_sends.
Qed.

(** In either attempt: at most one broadcast; none if the attempt raises,
    so that once something has been broadcast the attempt does return
    [True] or [False]; and what is broadcast is the signed bytes of the
    transaction signed immediately before. *)
Theorem only_what_was_signed_is_broadcast cfg web3 amount w :
  (exists evs,
     trace (snd (wrap_eth_to_weth cfg web3 amount w)) = evs ++ trace w /\
     broadcasts_what_was_signed
       (fst (wrap_eth_to_weth cfg web3 amount w)) evs) /\
  (exists evs,
     trace (snd (unwrap_weth_to_eth cfg web3 amount w)) = evs ++ trace w /\
     broadcasts_what_was_signed
       (fst (unwrap_weth_to_eth cfg web3 amount w)) evs).
Proof.
  split.
  - destruct (wrap_shape cfg web3 amount w _ _ (surjective_pairing _))
      as (evs & Ht & Hs).
    exists evs. split; [exact Ht |]. eapply shape_broadcast, Hs.
  - destruct (unwrap_shape cfg web3 amount w _ _ (surjective_pairing _))
      as (evs & Ht & Hs).
    exists evs. split; [exact Ht |]. eapply shape_broadcast, Hs.
Qed.

(** In either attempt, every transaction that is signed has chain id
    167000, both fee fields at 25000000 wei, and as gas limit the reply to
    the [estimate_gas] call logged just before the signing:
    [weth_contract.functions.deposit(amount)] with the amount as value for
    a wrap, [weth_contract.functions.withdraw(amount)] for an unwrap.
    Nothing is said about that call and the data of the transaction being
    the same call: for a wrap they are not, the estimate being asked for
    the ABI's [deposit(uint256)] and the data being the selector of
    [deposit()]. *)
Theorem signed_with_fresh_gas_and_fixed_fees cfg web3 amount w :
  (exists evs,
     trace (snd (wrap_eth_to_weth cfg web3 amount w)) = evs ++ trace w /\
     signed_with_fixed_fees (deposit_call cfg amount) evs) /\
  (exists evs,
     trace (snd (unwrap_weth_to_eth cfg web3 amount w)) = evs ++ trace w /\
     signed_with_fixed_fees (withdraw_call cfg amount) evs).
Proof.
  split.
  - destruct (wrap_shape cfg web3 amount w _ _ (surjective_pairing _))
      as (evs & Ht & Hs).
    exists evs. split; [exact Ht |]. intros tx s Hin.
    destruct (shape_signed _ _ _ _ _ _ _ _ _ tx s Hs Hin)
      as (after & nonce & gas & before & Hb & ->).
    unfold build_wrap in Hb. inversion Hb; subst tx. simpl.
    repeat (split; [reflexivity |]). do 2 eexists. reflexivity.
  - destruct (unwrap_shape cfg web3 amount w _ _ (surjective_pairing _))
      as (evs & Ht & Hs).
    exists evs. split; [exact Ht |]. intros tx s Hin.
    destruct (shape_signed _ _ _ _ _ _ _ _ _ tx s Hs Hin)
      as (after & nonce & gas & before & Hb & ->).
    unfold build_unwrap in Hb.
    destruct (to_bytes amount 32); inversion Hb; subst tx. simpl.
    repeat (split; [reflexivity |]). do 2 eexists. reflexivity.
Qed.

(** * When every attempt confirms *)

Lemma branch_confirms cfg web3 k w :
  always_confirms cfg web3 ->
  exists w1,
    branch cfg web3 k w = (Ret tt, w1) /\
    vars w1 = if eligible k (vars w) then bump_total (bump_own k (vars w))
              else vars w.
Proof.
  intros Hall. rewrite branch_run.
  destruct (eligible k (vars w)); [| now exists w].
  specialize (Hall k w).
  pose proof (quiet_attempt cfg web3 k w) as (Hv & _).
  destruct (attempt cfg web3 k w) as [ra wa]. simpl in Hall, Hv. subst ra.
  exists (counted k wa). split; [reflexivity |]. simpl. now rewrite Hv.
Qed.

Lemma main_loop_completes cfg web3 :
  always_confirms cfg web3 ->
  forall fuel w,
    consistent (vars w) -> within_quota (vars w) ->
    total_tx (vars w) < 90 ->
    90 - total_tx (vars w) <= Z.of_nat fuel ->
    exists w',
      main_loop cfg web3 fuel w = (Ret tt, w') /\
      vars w' = mkProgress 45 45 90 /\ file w' = None.
Proof.
  intros Hall. induction fuel as [| fuel IH]; intros w Hc Hq Hlt Hfuel;
    [lia |].
  rewrite main_loop_run.
  destruct (total_tx (vars w) <? 90) eqn:Hg; [| lia].
  destruct (branch_confirms cfg web3 Wrap w Hall) as (w1 & -> & Hv1).
  destruct (branch_confirms cfg web3 Unwrap w1 Hall) as (w2 & -> & Hv2).
  unfold consistent, within_quota in *.
  assert (Hstep :
    total_tx (vars w) + 1 <= total_tx (vars w2) /\
    total_tx (vars w2) = wrap_counter (vars w2) + unwrap_counter (vars w2) /\
    wrap_counter (vars w2) <= 45 /\ unwrap_counter (vars w2) <= 45 /\
    total_tx (vars w2) <= 90).
  { rewrite Hv2.
    destruct (eligible Unwrap (vars w1)) eqn:E2; simpl in E2;
      rewrite Hv1 in *;
      destruct (eligible Wrap (vars w)) eqn:E1; simpl in E1, E2 |- *; lia. }
  destruct (total_tx (vars w2) >=? 90) eqn:Hexit.
  - exists (cleared w2). split; [reflexivity |].
    rewrite cleared_vars, cleared_file. split; [| reflexivity].
    destruct (vars w2) as [a b c]; simpl in *. f_equal; lia.
  - apply IH; simpl; lia.
Qed.

(** On a node where every attempt confirms, a run that starts with
    counters that add up, within the caps and short of the quota, is over
    after at most [90 - total_tx] iterations: the loop is left with the
    counters at (45, 45, 90) and the status file deleted. *)
Theorem all_confirming_run_completes cfg web3 fuel w :
  always_confirms cfg web3 ->
  consistent (vars w) -> within_quota (vars w) ->
  total_tx (vars w) < 90 ->
  90 - total_tx (vars w) <= Z.of_nat fuel ->
  exists w',
    main_loop cfg web3 fuel w = (Ret tt, w') /\
    vars w' = mkProgress 45 45 90 /\ file w' = None.
Proof. intros Hall. now apply main_loop_completes. Qed.

(** * Start-up *)

Lemma unset_false v : unset (Some v) = false <-> v <> "".
Proof.
  unfold unset. destruct (String.eqb v "") eqn:E.
  - apply String.eqb_eq in E. split; [discriminate | congruence].
  - apply String.eqb_neq in E. split; auto.
Qed.

Lemma require_env_inr env name msg v :
  require_env env name msg = inr v <-> provided env name v.
Proof.
  unfold require_env, provided.
  destruct (env !! name) as [x |];
    [| split; [discriminate | intros [H _]; discriminate]].
  destruct (unset (Some x)) eqn:E.
  - split; [discriminate |]. intros [H Hne]. inversion H; subst.
    apply unset_false in Hne. congruence.
  - apply unset_false in E. split.
    + intros H; inversion H; subst. auto.
    + intros [H _]. inversion H; subst. reflexivity.
Qed.

Lemma require_env_inl env name msg :
  (forall v, ~ provided env name v) ->
  require_env env name msg = inl (RuntimeError msg).
Proof.
  intros Hno. destruct (require_env env name msg) as [e | v] eqn:E.
  - unfold require_env in E. destruct (env !! name) as [x |];
      [destruct (unset (Some x)) |]; congruence.
  - apply require_env_inr in E. now apply Hno in E.
Qed.

Lemma checksum_inr f given a : checksum f given = inr a <-> f given = Some a.
Proof.
  unfold checksum. destruct (f given); split; intros H;
    inversion H; subst; reflexivity || discriminate.
Qed.

(** The start-up sequence ends with a configuration exactly when the four
    variables are set and not empty, the node answers, and both addresses
    pass the checksum conversion; the configuration then holds the
    converted addresses and the key as given.  A missing or empty RPC URL
    is reported first of all, and a node that does not answer is reported
    before any of the other three variables is looked at. *)
Theorem startup_succeeds_exactly_when_configured
    to_checksum_address is_connected env cfg :
  (startup to_checksum_address is_connected env = inr cfg <->
   exists url a_env w_env,
     provided env "TAIKO_RPC_URL" url /\ is_connected url = true /\
     provided env "PRIVATE_KEY" (private_key cfg) /\
     provided env "MY_ADDRESS" a_env /\
     to_checksum_address a_env = Some (my_address cfg) /\
     provided env "WETH_CONTRACT_ADDRESS" w_env /\
     to_checksum_address w_env = Some (weth_contract_address cfg)) /\
  ((forall url, ~ provided env "TAIKO_RPC_URL" url) ->
   startup to_checksum_address is_connected env =
   inl (RuntimeError "Missing TAIKO_RPC_URL in environment variables.")) /\
  (forall url, provided env "TAIKO_RPC_URL" url ->
   is_connected url = false ->
   startup to_checksum_address is_connected env =
   inl (RuntimeError "Error: Cannot connect to Taiko network.")).
Proof.
  split; [| split].
  - unfold startup. split.
    + destruct (require_env env "TAIKO_RPC_URL" _) as [? | url] eqn:E1;
        [discriminate |].
      destruct (is_connected url) eqn:Ec; [| discriminate]. cbn [negb].
      destruct (require_env env "PRIVATE_KEY" _) as [? | key] eqn:E2;
        [discriminate |].
      destruct (require_env env "MY_ADDRESS" _) as [? | a_env] eqn:E3;
        [discriminate |].
      destruct (checksum to_checksum_address a_env) as [? | a] eqn:E4;
        [discriminate |].
      destruct (require_env env "WETH_CONTRACT_ADDRESS" _) as [? | w_env]
        eqn:E5; [discriminate |].
      destruct (checksum to_checksum_address w_env) as [? | wa] eqn:E6;
        [discriminate |].
      intros H; inversion H; subst; simpl.
      apply require_env_inr in E1, E2, E3, E5.
      apply checksum_inr in E4, E6.
      exists url, a_env, w_env. auto 10.
    + intros (url & a_env & w_env & H1 & Hc & H2 & H3 & H4 & H5 & H6).
      apply (require_env_inr env _
               "Missing TAIKO_RPC_URL in environment variables.") in H1.
      apply (require_env_inr env _
               "Missing PRIVATE_KEY in environment variables.") in H2.
      apply (require_env_inr env _
               "Missing MY_ADDRESS in environment variables.") in H3.
      apply (require_env_inr env _
               "Missing WETH_CONTRACT_ADDRESS in environment variables.")
        in H5.
      apply checksum_inr in H4, H6.
      rewrite H1, Hc. cbn [negb]. rewrite H2, H3, H4, H5, H6.
      destruct cfg; reflexivity.
  - intros Hno. unfold startup.
    now rewrite (require_env_inl env _ _ Hno).
  - intros url Hurl Hc. unfold startup.
    apply (require_env_inr env _
             "Missing TAIKO_RPC_URL in environment variables.") in Hurl.
    now rewrite Hurl, Hc.
Qed.

(** * What a report of the watcher rests on *)

Lemma verdict_some r b :
  verdict r = Some b ->
  exists rc, r = Ok (Some rc) /\ status rc = (if b then 1 else 0).
Proof.
  unfold verdict. destruct r as [[rc |] | e]; try discriminate.
  destruct (status rc =? 1) eqn:H1.
  - intros H; inversion H; subst. exists rc. split; [reflexivity | lia].
  - destruct (status rc =? 0) eqn:H0; [| discriminate].
    intros H; inversion H; subst. exists rc. split; [reflexivity | lia].
Qed.

Lemma wait_loop_grounds web3 tx_hash timeout start_time fuel :
  forall w b w',
  wait_loop web3 fuel tx_hash timeout start_time w = (Ret b, w') ->
  (exists rc rest,
     trace w' =
       EvPrint (if b then MsgConfirmed tx_hash else MsgReverted tx_hash)
         :: EvGetReceipt tx_hash (Ok (Some rc)) :: rest /\
     status rc = (if b then 1 else 0)) \/
  (b = false /\
   (exists rest, trace w' = EvPrint (MsgTimeout tx_hash) :: rest) /\
   timeout <= now w' - start_time).
Proof.
  induction fuel as [| fuel IH]; intros w b w'; rewrite wait_loop_run;
    destruct (now w - start_time <? timeout) eqn:Hwin;
    try discriminate;
    try (intros H; inversion H; subst; right; simpl;
         split; [reflexivity | split; [eexists; reflexivity | lia]]).
  destruct (verdict (get_transaction_receipt web3 (calls w) tx_hash))
    as [b0 |] eqn:Hv.
  - intros H; inversion H; subst. left.
    destruct (verdict_some _ _ Hv) as (rc & Hr & Hs).
    exists rc, (trace w). unfold polled. rewrite Hv, Hr.
    destruct b; split; (reflexivity || assumption).
  - apply IH.
Qed.

(** The watcher returns [True] only right after a receipt query for this
    hash that returned a receipt with status 1.  It returns [False] either
    right after such a query that returned a receipt with status 0 (the
    line "Failed"), or with the line "Timeout" once the timeout has
    elapsed since the call. *)
Theorem report_rests_on_last_receipt web3 tx_hash timeout w b w' :
  wait_for_confirmation web3 tx_hash timeout w = (Ret b, w') ->
  (exists rc rest,
     trace w' =
       EvPrint (if b then MsgConfirmed tx_hash else MsgReverted tx_hash)
         :: EvGetReceipt tx_hash (Ok (Some rc)) :: rest /\
     status rc = (if b then 1 else 0)) \/
  (b = false /\
   (exists rest, trace w' = EvPrint (MsgTimeout tx_hash) :: rest) /\
   timeout <= now w' - now w).
Proof. rewrite wait_for_confirmation_run. apply wait_loop_grounds. Qed.

(** * Attempts and the progress *)

(** Neither attempt, whatever the amount and however it ends, assigns to
    the counters or touches the status file; the clock does not go back;
    and all it logs are remote calls, signings, prints and sleeps. *)
Theorem attempts_leave_progress_alone cfg web3 amount w :
  drift w (snd (wrap_eth_to_weth cfg web3 amount w)) /\
  drift w (snd (unwrap_weth_to_eth cfg web3 amount w)).
Proof.
  split; [apply quiet_wrap_eth_to_weth | apply quiet_unwrap_weth_to_eth].
Qed.

(** ** More theorems at work *)

(** C8 at work, on the obliging node: the wrap signs the transaction to
    the token contract with the nonce 2 just replied, the amount as value
    and the bare selector as data, and broadcasts the signed bytes; the
    unwrap signs one whose data is the selector followed by the amount in
    32 bytes, and broadcasts it. *)
Lemma submitted_payload_witness :
  (exists evs reply,
     trace (snd (wrap_eth_to_weth sample_cfg obliging_web3 amount_in_wei
                   fresh_world)) = evs ++ trace fresh_world /\
     In (EvSign (wrap_transaction sample_cfg 2 45000 amount_in_wei)
           (Ok [Byte.x01])) evs /\
     In (EvSendRaw [Byte.x01] reply) evs /\
     built_on_fresh_nonce sample_cfg evs
       (wrap_transaction sample_cfg 2 45000 amount_in_wei) (Ok [Byte.x01]) /\
     tx_data (wrap_transaction sample_cfg 2 45000 amount_in_wei)
       = "0x" +:+ hex deposit_selector) /\
  (exists evs reply,
     trace (snd (unwrap_weth_to_eth sample_cfg obliging_web3 amount_in_wei
                   fresh_world)) = evs ++ trace fresh_world /\
     In (EvSign (unwrap_transaction sample_cfg 2 45000 amount_word)
           (Ok [Byte.x01])) evs /\
     In (EvSendRaw [Byte.x01] reply) evs /\
     built_on_fresh_nonce sample_cfg evs
       (unwrap_transaction sample_cfg 2 45000 amount_word) (Ok [Byte.x01]) /\
     tx_data (unwrap_transaction sample_cfg 2 45000 amount_word)
       = "0x2e1a7d4d000000000000000000000000000000000000000000000000058d15e176280000").
Proof.
  destruct (submitted_payload sample_cfg obliging_web3 amount_in_wei
              fresh_world)
    as [(evs & Ht & Hsigned & _ & Hsubmit) (evs' & Ht' & Hsigned' & _ & Hsubmit')].
  split.
  - destruct (Hsubmit
                (snd (has_sufficient_balance sample_cfg obliging_web3
                        amount_in_wei true fresh_world)) 2 45000)
      as [Hin Hsend]; try (vm_compute; reflexivity).
    destruct (Hsend [Byte.x01] eq_refl) as [reply Hreply].
    exists evs, reply. split; [exact Ht |]. split; [exact Hin |].
    split; [exact Hreply |].
    split; [exact (proj1 (Hsigned _ _ Hin)) | reflexivity].
  - destruct (Hsubmit'
                (snd (has_sufficient_balance sample_cfg obliging_web3
                        amount_in_wei false fresh_world)) 2 45000
                amount_word)
      as [Hin Hsend]; try (vm_compute; reflexivity).
    destruct (Hsend [Byte.x01] eq_refl) as [reply Hreply].
    exists evs', reply. split; [exact Ht' |]. split; [exact Hin |].
    split; [exact Hreply |].
    split; [exact (proj1 (Hsigned' _ _ Hin)) | vm_compute; reflexivity].
Defined.

(** Runs an attempt on the obliging node, symbolically in the world. *)
Ltac run_obliging H :=
  unfold has_sufficient_balance, try_except, do_estimate_gas,
    check_eth_balance, check_weth_balance, get_next_nonce, do_send, do_sign,
    remote, mbind, M_bind, mret, M_ret, print, log in H;
  try (let v := eval vm_compute in (to_bytes amount_in_wei 32) in
       change (to_bytes amount_in_wei 32) with v in H);
  unfold lift, mret, M_ret in H;
  cbn -[wait_for_confirmation Z.add Z.of_N] in H;
  try match type of H with
      | context [negb ?c] =>
          let v := eval vm_compute in (negb c) in
          change (negb c) with v in H
      end;
  cbv beta iota in H;
  cbn [vars file now calls trace] in H;
  rewrite wait_for_confirmation_run, wait_loop_run in H;
  cbn [now] in H; rewrite Z.sub_diag in H;
  cbn -[Z.add Z.of_N] in H;
  inversion H; reflexivity.

Lemma obliging_always_confirms : always_confirms sample_cfg obliging_web3.
Proof.
  intros k w.
  destruct (attempt sample_cfg obliging_web3 k w) as [r wout] eqn:Hrun.
  simpl. destruct k; simpl in Hrun.
  - unfold wrap_eth_to_weth in Hrun. run_obliging Hrun.
  - unfold unwrap_weth_to_eth in Hrun. run_obliging Hrun.
Qed.

Lemma restart_resumes_witness :
  fst crashed_run = Raise (Web3Exception 503) /\
  (load_transaction_status (snd crashed_run)
     = (Ret (vars (snd crashed_run)), snd crashed_run) \/
   (fst crashed_run = Ret tt /\ file (snd crashed_run) = None /\
    90 <= total_tx (vars (snd crashed_run)))).
Proof.
  split; [vm_compute; reflexivity |].
  apply (restart_resumes sample_cfg flaky_estimate_web3 3 resumed_world
           (mkProgress 3 2 5) resumed_world
           (fst crashed_run) (snd crashed_run)).
  - vm_compute; reflexivity.
  - vm_compute; reflexivity.
Defined.

Lemma counted_exactly_once_witness :
  total_tx (vars (snd near_quota_run)) - total_tx (vars near_quota)
    = Z.of_nat (count is_save (trace (snd near_quota_run)))
      - Z.of_nat (count is_save (trace near_quota)) /\
  total_tx (vars (snd near_quota_run)) - total_tx (vars near_quota)
    = Z.of_nat (count is_confirmation (trace (snd near_quota_run)))
      - Z.of_nat (count is_confirmation (trace near_quota)).
Proof.
  apply (counted_exactly_once sample_cfg obliging_web3 5 near_quota
           (fst near_quota_run) (snd near_quota_run)).
  vm_compute; reflexivity.
Defined.

Lemma gate_refusal_sends_nothing_witness :
  fst (wrap_eth_to_weth sample_cfg broke_web3 amount_in_wei fresh_world)
    = Ret false /\
  exists g,
    trace (snd (wrap_eth_to_weth sample_cfg broke_web3 amount_in_wei
                  fresh_world))
      = EvPrint MsgInsufficientEth :: g ++ trace fresh_world /\
    forallb gate_event g = true.
Proof.
  apply (gate_refusal_sends_nothing sample_cfg broke_web3 amount_in_wei true
           fresh_world
           (snd (has_sufficient_balance sample_cfg broke_web3 amount_in_wei
                   true fresh_world))).
  vm_compute; reflexivity.
Defined.

Lemma all_confirming_run_completes_witness :
  exists w',
    main_loop sample_cfg obliging_web3 90 fresh_world = (Ret tt, w') /\
    vars w' = mkProgress 45 45 90 /\ file w' = None.
Proof.
  apply (all_confirming_run_completes sample_cfg obliging_web3 90 fresh_world).
  - exact obliging_always_confirms.
  - vm_compute; reflexivity.
  - vm_compute. repeat split; discriminate.
  - vm_compute; reflexivity.
  - vm_compute. discriminate.
Defined.

Lemma report_rests_on_last_receipt_witness :
  (exists rc rest,
     trace (snd slow_watch) =
       EvPrint (MsgConfirmed [Byte.xaa])
         :: EvGetReceipt [Byte.xaa] (Ok (Some rc)) :: rest /\
     status rc = 1) \/
  (true = false /\
   (exists rest,
      trace (snd slow_watch) = EvPrint (MsgTimeout [Byte.xaa]) :: rest) /\
   300 <= now (snd slow_watch) - now fresh_world).
Proof.
  apply (report_rests_on_last_receipt slow_web3 [Byte.xaa] 300 fresh_world
           true (snd slow_watch)).
  vm_compute; reflexivity.
Defined.

(** The start-up sequence on the sample environment, and with the key
    left empty. *)
Example startup_sample :
  startup sample_checksum (fun _ => true) sample_env
    = inr (mkConfig "0xa11ce" "0xa51ef" "k") /\
  startup sample_checksum (fun _ => true) (<["PRIVATE_KEY" := ""]> sample_env)
    = inl (RuntimeError "Missing PRIVATE_KEY in environment variables.") /\
  startup sample_checksum (fun _ => false) (<["PRIVATE_KEY" := ""]> sample_env)
    = inl (RuntimeError "Error: Cannot connect to Taiko network.").
Proof. repeat split; vm_compute; reflexivity. Qed.
